(** * Scroll coordination of a chat message list: the [useAutoScroll] hook

    A shallow embedding of the two versions of the [useAutoScroll] React hook
    and of the [ChatAutoScroll] component's "load old messages" handler.

    - [Observer] embeds the hook that keeps a programmatic-scroll ref and lets
      the IntersectionObserver callback decide the "at bottom" state.
    - [Offset] embeds the hook of [useAutoScroll.ts], which computes "at
      bottom" from the container's scroll offsets inside [handleScroll] and
      releases the user-scrolling state through a 150 ms timer.

    React state ([useState]) and refs ([useRef]) are fields of a state record;
    a handler is a function from states to states.  Each handler reads the
    values of the last render and its [set...] calls are applied afterwards,
    so a handler reads its input state and writes its output state.  What the
    code hands to the browser ([setTimeout], [requestAnimationFrame]) is kept
    in the state as a queue of pending callbacks; the values a closure captures
    are the arguments of the queued callback. *)

From Stdlib Require Import Bool List ZArith NArith Arith Lia.
Import ListNotations.

Set Implicit Arguments.

(** ** The scrollable container *)

(** The three attributes of the container element that the code reads. *)
Record container : Type := mkContainer {
  scrollTop : Z;
  scrollHeight : Z;
  clientHeight : Z
}.

(** The largest scroll offset the browser accepts for a container. *)
Definition maxScrollTop (c : container) : Z :=
  Z.max 0 (scrollHeight c - clientHeight c).

(** [container.scrollTop = v]: the browser clamps the assigned offset into the
    scrollable range. *)
Definition assignScrollTop (v : Z) (c : container) : container :=
  mkContainer (Z.min (Z.max 0 v) (maxScrollTop c)) (scrollHeight c) (clientHeight c).

(** The geometry a well-laid-out container has: the offset lies in the
    scrollable range. *)
Definition wellLaidOut (c : container) : Prop :=
  (0 <= scrollTop c <= scrollHeight c - clientHeight c)%Z.

(** A container scrolled 500px down a 2000px list in a 600px viewport. *)
Definition sampleContainer : container := mkContainer 500 2000 600.

(** ** Timers *)

Section TimerQueue.
Variable callback : Type.

(** A pending [setTimeout]: its id, the time it is due and what it runs. *)
Record timer : Type := mkTimer {
  timerId : nat;
  due : N;
  action : callback
}.

(** Pending timers are kept in firing order: by due time, and in order of
    registration among timers due at the same time. *)
Fixpoint enqueue (t : timer) (q : list timer) : list timer :=
  match q with
  | [] => [t]
  | u :: q' => if (due u <=? due t)%N then u :: enqueue t q' else t :: q
  end.

(** [clearTimeout id]: an id that is not pending is ignored. *)
Definition cancel (id : nat) (q : list timer) : list timer :=
  filter (fun t => negb (Nat.eqb (timerId t) id)) q.

Definition isDue (now : N) (t : timer) : bool := (due t <=? now)%N.

Definition expired (now : N) (q : list timer) : list timer :=
  filter (isDue now) q.

Definition waiting (now : N) (q : list timer) : list timer :=
  filter (fun t => negb (isDue now t)) q.
End TimerQueue.

Arguments mkTimer {callback} _ _ _.

(** ** The hook with a programmatic-scroll guard *)

Module Observer.

(** What a timer of this hook runs when it fires. *)
Inductive timerCallback : Type :=
| ResetProgrammatic     (* isScrollingProgrammaticallyRef.current = false *)
| ReleaseLoading.       (* setIsLoadingOldMessages(false) *)

(** What an animation-frame callback of this hook runs. *)
Inductive frameCallback : Type :=
| AutoScroll (smooth : bool)                               (* scrollToBottom(smooth) *)
| Compensate (scrollHeightBefore scrollTopBefore : Z).     (* keep the position after a prepend *)

Record state : Type := mkState {
  (* useState *)
  isAtBottom : bool;
  shouldAutoScroll : bool;
  isUserScrolling : bool;
  isLoadingOldMessages : bool;
  (* props *)
  isStreaming : bool;
  messagesLength : nat;
  (* useRef *)
  isScrollingProgrammaticallyRef : bool;
  chatMessagesRef : option container;     (* None: .current is null *)
  messagesEndRef : bool;                  (* false: .current is null *)
  (* pending browser callbacks *)
  clock : N;
  nextTimerId : nat;
  timers : list (timer timerCallback);
  frames : list frameCallback;
  (* the scrollIntoView calls made so far, with their smooth argument *)
  scrollLog : list bool
}.

Definition setIsAtBottom (b : bool) (st : state) : state :=
  mkState b (shouldAutoScroll st) (isUserScrolling st) (isLoadingOldMessages st)
    (isStreaming st) (messagesLength st)
    (isScrollingProgrammaticallyRef st) (chatMessagesRef st) (messagesEndRef st)
    (clock st) (nextTimerId st) (timers st) (frames st) (scrollLog st).

Definition setShouldAutoScroll (b : bool) (st : state) : state :=
  mkState (isAtBottom st) b (isUserScrolling st) (isLoadingOldMessages st)
    (isStreaming st) (messagesLength st)
    (isScrollingProgrammaticallyRef st) (chatMessagesRef st) (messagesEndRef st)
    (clock st) (nextTimerId st) (timers st) (frames st) (scrollLog st).

Definition setIsUserScrolling (b : bool) (st : state) : state :=
  mkState (isAtBottom st) (shouldAutoScroll st) b (isLoadingOldMessages st)
    (isStreaming st) (messagesLength st)
    (isScrollingProgrammaticallyRef st) (chatMessagesRef st) (messagesEndRef st)
    (clock st) (nextTimerId st) (timers st) (frames st) (scrollLog st).

Definition setIsLoadingOldMessages (b : bool) (st : state) : state :=
  mkState (isAtBottom st) (shouldAutoScroll st) (isUserScrolling st) b
    (isStreaming st) (messagesLength st)
    (isScrollingProgrammaticallyRef st) (chatMessagesRef st) (messagesEndRef st)
    (clock st) (nextTimerId st) (timers st) (frames st) (scrollLog st).

Definition setProps (streaming : bool) (len : nat) (st : state) : state :=
  mkState (isAtBottom st) (shouldAutoScroll st) (isUserScrolling st) (isLoadingOldMessages st)
    streaming len
    (isScrollingProgrammaticallyRef st) (chatMessagesRef st) (messagesEndRef st)
    (clock st) (nextTimerId st) (timers st) (frames st) (scrollLog st).

Definition setProgrammatic (b : bool) (st : state) : state :=
  mkState (isAtBottom st) (shouldAutoScroll st) (isUserScrolling st) (isLoadingOldMessages st)
    (isStreaming st) (messagesLength st)
    b (chatMessagesRef st) (messagesEndRef st)
    (clock st) (nextTimerId st) (timers st) (frames st) (scrollLog st).

Definition setDom (c : option container) (anchor : bool) (st : state) : state :=
  mkState (isAtBottom st) (shouldAutoScroll st) (isUserScrolling st) (isLoadingOldMessages st)
    (isStreaming st) (messagesLength st)
    (isScrollingProgrammaticallyRef st) c anchor
    (clock st) (nextTimerId st) (timers st) (frames st) (scrollLog st).

Definition setScheduler (now : N) (next : nat) (q : list (timer timerCallback))
    (fs : list frameCallback) (st : state) : state :=
  mkState (isAtBottom st) (shouldAutoScroll st) (isUserScrolling st) (isLoadingOldMessages st)
    (isStreaming st) (messagesLength st)
    (isScrollingProgrammaticallyRef st) (chatMessagesRef st) (messagesEndRef st)
    now next q fs (scrollLog st).

Definition logScroll (smooth : bool) (st : state) : state :=
  mkState (isAtBottom st) (shouldAutoScroll st) (isUserScrolling st) (isLoadingOldMessages st)
    (isStreaming st) (messagesLength st)
    (isScrollingProgrammaticallyRef st) (chatMessagesRef st) (messagesEndRef st)
    (clock st) (nextTimerId st) (timers st) (frames st) (scrollLog st ++ [smooth]).

(** [setTimeout(cb, delay)] *)
Definition setTimeout (cb : timerCallback) (delay : N) (st : state) : state :=
  setScheduler (clock st) (S (nextTimerId st))
    (enqueue (mkTimer (nextTimerId st) (clock st + delay)%N cb) (timers st))
    (frames st) st.

(** [requestAnimationFrame(cb)] *)
Definition requestAnimationFrame (cb : frameCallback) (st : state) : state :=
  setScheduler (clock st) (nextTimerId st) (timers st) (frames st ++ [cb]) st.

(** One entry of the IntersectionObserver callback.  [wasAtBottom] is the
    [isAtBottom] of the render that created the observer. *)
Definition observeEntry (wasAtBottom : bool) (st : state) (isIntersecting : bool) : state :=
  let nowAtBottom := isIntersecting in
  let st1 := setIsAtBottom nowAtBottom st in
  if negb wasAtBottom && nowAtBottom && negb (isScrollingProgrammaticallyRef st1)
  then setIsUserScrolling false (setShouldAutoScroll true st1)
  else st1.

(** The IntersectionObserver callback: [entries.forEach(...)]. *)
Definition observerCallback (entries : list bool) (st : state) : state :=
  fold_left (observeEntry (isAtBottom st)) entries st.

Definition scrollToBottom (smooth : bool) (st : state) : state :=
  if messagesEndRef st then
    let st1 := setProgrammatic true st in
    let st2 := logScroll smooth st1 in
    setTimeout ResetProgrammatic (if smooth then 500 else 0)%N st2
  else st.

(** The body of the effect with dependencies
    [messagesLength, isStreaming, shouldAutoScroll, isAtBottom, scrollToBottom]. *)
Definition autoScrollEffect (st : state) : state :=
  if shouldAutoScroll st && isAtBottom st
  then requestAnimationFrame (AutoScroll (negb (isStreaming st))) st
  else st.

Definition handleScroll (st : state) : state :=
  if isScrollingProgrammaticallyRef st then st
  else if negb (isAtBottom st) && negb (isStreaming st)
  then setShouldAutoScroll false (setIsUserScrolling true st)
  else st.

Definition handleScrollToBottom (st : state) : state :=
  scrollToBottom true (setIsUserScrolling false (setShouldAutoScroll true st)).

(** [handleLoadOldMessages] of the component.  The host's
    [onLoadOldMessages()] changes the page later, as events of its own. *)
Definition handleLoadOldMessages (st : state) : state :=
  let st1 := setIsLoadingOldMessages true st in
  match chatMessagesRef st1 with
  | None => st1
  | Some container =>
      let scrollHeightBefore := scrollHeight container in
      let scrollTopBefore := scrollTop container in
      requestAnimationFrame (Compensate scrollHeightBefore scrollTopBefore) st1
  end.

Definition showScrollButton (st : state) : bool :=
  negb (isAtBottom st) && negb (isLoadingOldMessages st) && isUserScrolling st.

(** *** The browser running the pending callbacks *)

Definition fireTimer (st : state) (t : timer timerCallback) : state :=
  match action t with
  | ResetProgrammatic => setProgrammatic false st
  | ReleaseLoading => setIsLoadingOldMessages false st
  end.

(** [ms] milliseconds pass; the timers that are due fire in order. *)
Definition elapse (ms : N) (st : state) : state :=
  let now := (clock st + ms)%N in
  fold_left fireTimer (expired now (timers st))
    (setScheduler now (nextTimerId st) (waiting now (timers st)) (frames st) st).

Definition runFrame (st : state) (cb : frameCallback) : state :=
  match cb with
  | AutoScroll smooth => scrollToBottom smooth st
  | Compensate scrollHeightBefore scrollTopBefore =>
      (* the closure holds the element itself; a detached element keeps no offset *)
      let st1 :=
        match chatMessagesRef st with
        | Some container =>
            let scrollHeightAfter := scrollHeight container in
            let scrollDiff := (scrollHeightAfter - scrollHeightBefore)%Z in
            setDom (Some (assignScrollTop (scrollTopBefore + scrollDiff) container))
              (messagesEndRef st) st
        | None => st
        end in
      setTimeout ReleaseLoading 500%N st1
  end.

(** The next animation frame: the callbacks requested so far run in order. *)
Definition animationFrame (st : state) : state :=
  fold_left runFrame (frames st)
    (setScheduler (clock st) (nextTimerId st) (timers st) [] st).

(** *** Events *)

Inductive event : Type :=
| Intersection (entries : list bool)      (* the observer reports isIntersecting values *)
| ScrollEvent                             (* onScroll *)
| JumpToBottomClick                       (* the scroll button's onClick *)
| CallScrollToBottom (smooth : bool)      (* the host calls scrollToBottom *)
| LoadOldMessagesClick                    (* the "Load Old Messages" button *)
| CallSetIsLoadingOldMessages (b : bool)  (* the host calls the exposed setter *)
| Render (streaming : bool) (len : nat)   (* the host renders with new props *)
| Dom (c : option container) (anchor : bool)   (* the page changes: layout, scroll, mount *)
| AnimationFrame
| Elapse (ms : N).

Definition handle (ev : event) (st : state) : state :=
  match ev with
  | Intersection entries => observerCallback entries st
  | ScrollEvent => handleScroll st
  | JumpToBottomClick => handleScrollToBottom st
  | CallScrollToBottom smooth => scrollToBottom smooth st
  | LoadOldMessagesClick => handleLoadOldMessages st
  | CallSetIsLoadingOldMessages b => setIsLoadingOldMessages b st
  | Render streaming len => setProps streaming len st
  | Dom c anchor => setDom c anchor st
  | AnimationFrame => animationFrame st
  | Elapse ms => elapse ms st
  end.

(** Whether a dependency of the auto-scroll effect differs between two renders. *)
Definition depsChanged (old new : state) : bool :=
  negb (Nat.eqb (messagesLength old) (messagesLength new))
  || negb (Bool.eqb (isStreaming old) (isStreaming new))
  || negb (Bool.eqb (shouldAutoScroll old) (shouldAutoScroll new))
  || negb (Bool.eqb (isAtBottom old) (isAtBottom new)).

(** React commits the new state and runs the effect when a dependency changed. *)
Definition commit (old new : state) : state :=
  if depsChanged old new then autoScrollEffect new else new.

Definition step (st : state) (ev : event) : state :=
  commit st (handle ev st).

Definition run (evs : list event) (st : state) : state :=
  fold_left step evs st.

(** The hook after mounting: the [useState] initial values, the refs
    attached, and the effect run once. *)
Definition mount (streaming : bool) (len : nat) (c : container) : state :=
  autoScrollEffect
    (mkState true true false false streaming len false (Some c) true 0%N 1 [] [] []).

(** The four flags of the scroll state machine. *)
Definition flags (st : state) : bool * bool * bool * bool :=
  (isAtBottom st, shouldAutoScroll st, isUserScrolling st, isLoadingOldMessages st).

Definition resetsProgrammatic (t : timer timerCallback) : bool :=
  match action t with ResetProgrammatic => true | ReleaseLoading => false end.

Definition releasesLoading (t : timer timerCallback) : bool :=
  match action t with ReleaseLoading => true | ResetProgrammatic => false end.

Definition compensates (cb : frameCallback) : bool :=
  match cb with Compensate _ _ => true | AutoScroll _ => false end.

(** Nothing pending would set [isLoadingOldMessages] back to false. *)
Definition noReleasePending (st : state) : Prop :=
  existsb releasesLoading (timers st) = false /\
  existsb compensates (frames st) = false.

(** Frames and waits that follow one another. *)
Definition framesAndWaits (waits : list N) : list event :=
  flat_map (fun ms => [AnimationFrame; Elapse ms]) waits.

End Observer.

(** ** The hook of [useAutoScroll.ts]: scroll-offset arithmetic and a 150 ms timer *)

Module Offset.

(** The only timer of this hook, set by [handleScroll]; [atBottom] is the
    value the closure captured. *)
Inductive timerCallback : Type :=
| MarkNotScrolling (atBottom : bool).   (* if (atBottom) setIsUserScrolling(false) *)

Record state : Type := mkState {
  (* useState *)
  isAtBottom : bool;
  shouldAutoScroll : bool;
  isUserScrolling : bool;
  isLoadingOldMessages : bool;
  (* props *)
  isStreaming : bool;
  messagesLength : nat;
  (* useRef *)
  chatMessagesRef : option container;     (* None: .current is null *)
  messagesEndRef : bool;                  (* false: .current is null *)
  scrollTimeoutRef : option nat;          (* None: .current is null *)
  (* pending browser callbacks *)
  clock : N;
  nextTimerId : nat;
  timers : list (timer timerCallback);
  frames : list bool;                     (* scrollToBottom(smooth) requested for the next frame *)
  (* the scrollTo calls made so far: top and smooth *)
  scrollLog : list (Z * bool)
}.

Definition setIsAtBottom (b : bool) (st : state) : state :=
  mkState b (shouldAutoScroll st) (isUserScrolling st) (isLoadingOldMessages st)
    (isStreaming st) (messagesLength st)
    (chatMessagesRef st) (messagesEndRef st) (scrollTimeoutRef st)
    (clock st) (nextTimerId st) (timers st) (frames st) (scrollLog st).

Definition setShouldAutoScroll (b : bool) (st : state) : state :=
  mkState (isAtBottom st) b (isUserScrolling st) (isLoadingOldMessages st)
    (isStreaming st) (messagesLength st)
    (chatMessagesRef st) (messagesEndRef st) (scrollTimeoutRef st)
    (clock st) (nextTimerId st) (timers st) (frames st) (scrollLog st).

Definition setIsUserScrolling (b : bool) (st : state) : state :=
  mkState (isAtBottom st) (shouldAutoScroll st) b (isLoadingOldMessages st)
    (isStreaming st) (messagesLength st)
    (chatMessagesRef st) (messagesEndRef st) (scrollTimeoutRef st)
    (clock st) (nextTimerId st) (timers st) (frames st) (scrollLog st).

Definition setIsLoadingOldMessages (b : bool) (st : state) : state :=
  mkState (isAtBottom st) (shouldAutoScroll st) (isUserScrolling st) b
    (isStreaming st) (messagesLength st)
    (chatMessagesRef st) (messagesEndRef st) (scrollTimeoutRef st)
    (clock st) (nextTimerId st) (timers st) (frames st) (scrollLog st).

Definition setProps (streaming : bool) (len : nat) (st : state) : state :=
  mkState (isAtBottom st) (shouldAutoScroll st) (isUserScrolling st) (isLoadingOldMessages st)
    streaming len
    (chatMessagesRef st) (messagesEndRef st) (scrollTimeoutRef st)
    (clock st) (nextTimerId st) (timers st) (frames st) (scrollLog st).

Definition setDom (c : option container) (anchor : bool) (st : state) : state :=
  mkState (isAtBottom st) (shouldAutoScroll st) (isUserScrolling st) (isLoadingOldMessages st)
    (isStreaming st) (messagesLength st)
    c anchor (scrollTimeoutRef st)
    (clock st) (nextTimerId st) (timers st) (frames st) (scrollLog st).

Definition setScrollTimeoutRef (r : option nat) (st : state) : state :=
  mkState (isAtBottom st) (shouldAutoScroll st) (isUserScrolling st) (isLoadingOldMessages st)
    (isStreaming st) (messagesLength st)
    (chatMessagesRef st) (messagesEndRef st) r
    (clock st) (nextTimerId st) (timers st) (frames st) (scrollLog st).

Definition setScheduler (now : N) (next : nat) (q : list (timer timerCallback))
    (fs : list bool) (st : state) : state :=
  mkState (isAtBottom st) (shouldAutoScroll st) (isUserScrolling st) (isLoadingOldMessages st)
    (isStreaming st) (messagesLength st)
    (chatMessagesRef st) (messagesEndRef st) (scrollTimeoutRef st)
    now next q fs (scrollLog st).

Definition logScroll (top : Z) (smooth : bool) (st : state) : state :=
  mkState (isAtBottom st) (shouldAutoScroll st) (isUserScrolling st) (isLoadingOldMessages st)
    (isStreaming st) (messagesLength st)
    (chatMessagesRef st) (messagesEndRef st) (scrollTimeoutRef st)
    (clock st) (nextTimerId st) (timers st) (frames st) (scrollLog st ++ [(top, smooth)]).

(** [setTimeout(cb, delay)]: the new timer's id and the state holding it. *)
Definition setTimeout (cb : timerCallback) (delay : N) (st : state) : nat * state :=
  (nextTimerId st,
   setScheduler (clock st) (S (nextTimerId st))
     (enqueue (mkTimer (nextTimerId st) (clock st + delay)%N cb) (timers st))
     (frames st) st).

(** [clearTimeout(id)] *)
Definition clearTimeout (id : nat) (st : state) : state :=
  setScheduler (clock st) (nextTimerId st) (cancel id (timers st)) (frames st) st.

(** [requestAnimationFrame(() => scrollToBottom(smooth))] *)
Definition requestAnimationFrame (smooth : bool) (st : state) : state :=
  setScheduler (clock st) (nextTimerId st) (timers st) (frames st ++ [smooth]) st.

(** The IntersectionObserver callback: every entry sets [isAtBottom]. *)
Definition observerCallback (entries : list bool) (st : state) : state :=
  fold_left (fun acc isIntersecting => setIsAtBottom isIntersecting acc) entries st.

Definition scrollToBottom (smooth : bool) (st : state) : state :=
  match chatMessagesRef st with
  | Some container => logScroll (scrollHeight container) smooth st
  | None => st
  end.

Definition autoScrollEffect (st : state) : state :=
  if shouldAutoScroll st && isAtBottom st
  then requestAnimationFrame (negb (isStreaming st)) st
  else st.

Definition handleScroll (st : state) : state :=
  let st0 :=
    match scrollTimeoutRef st with
    | Some id => clearTimeout id st
    | None => st
    end in
  match chatMessagesRef st0 with
  | None => st0
  | Some container =>
      let atBottom :=
        (scrollHeight container - clientHeight container <=? scrollTop container + 1)%Z in
      let st1 := setIsAtBottom atBottom st0 in
      let st2 :=
        if negb atBottom && negb (isStreaming st1)
        then setShouldAutoScroll false (setIsUserScrolling true st1)
        else st1 in
      if atBottom then
        let st3 := setShouldAutoScroll true st2 in
        let (id, st4) := setTimeout (MarkNotScrolling atBottom) 150%N st3 in
        setScrollTimeoutRef (Some id) st4
      else st2
  end.

Definition handleScrollToBottom (st : state) : state :=
  scrollToBottom true (setIsUserScrolling false (setShouldAutoScroll true st)).

(** The cleanup of the last effect, run when the component unmounts. *)
Definition unmountCleanup (st : state) : state :=
  match scrollTimeoutRef st with
  | Some id => clearTimeout id st
  | None => st
  end.

Definition showScrollButton (st : state) : bool :=
  negb (isAtBottom st) && negb (isLoadingOldMessages st) && isUserScrolling st.

(** *** The browser running the pending callbacks *)

Definition fireTimer (st : state) (t : timer timerCallback) : state :=
  match action t with
  | MarkNotScrolling atBottom => if atBottom then setIsUserScrolling false st else st
  end.

(** [ms] milliseconds pass; the timers that are due fire in order. *)
Definition elapse (ms : N) (st : state) : state :=
  let now := (clock st + ms)%N in
  fold_left fireTimer (expired now (timers st))
    (setScheduler now (nextTimerId st) (waiting now (timers st)) (frames st) st).

(** The next animation frame: the scrolls requested so far run in order. *)
Definition animationFrame (st : state) : state :=
  fold_left (fun acc smooth => scrollToBottom smooth acc) (frames st)
    (setScheduler (clock st) (nextTimerId st) (timers st) [] st).

(** *** Events *)

Inductive event : Type :=
| Intersection (entries : list bool)      (* the observer reports isIntersecting values *)
| ScrollEvent                             (* onScroll *)
| JumpToBottomClick                       (* the scroll button's onClick *)
| CallScrollToBottom (smooth : bool)      (* the host calls scrollToBottom *)
| CallSetIsLoadingOldMessages (b : bool)  (* the host calls the exposed setter *)
| Render (streaming : bool) (len : nat)   (* the host renders with new props *)
| Dom (c : option container) (anchor : bool)   (* the page changes: layout, scroll, mount *)
| AnimationFrame
| Elapse (ms : N)
| Unmount.

Definition handle (ev : event) (st : state) : state :=
  match ev with
  | Intersection entries => observerCallback entries st
  | ScrollEvent => handleScroll st
  | JumpToBottomClick => handleScrollToBottom st
  | CallScrollToBottom smooth => scrollToBottom smooth st
  | CallSetIsLoadingOldMessages b => setIsLoadingOldMessages b st
  | Render streaming len => setProps streaming len st
  | Dom c anchor => setDom c anchor st
  | AnimationFrame => animationFrame st
  | Elapse ms => elapse ms st
  | Unmount => unmountCleanup st
  end.

Definition depsChanged (old new : state) : bool :=
  negb (Nat.eqb (messagesLength old) (messagesLength new))
  || negb (Bool.eqb (isStreaming old) (isStreaming new))
  || negb (Bool.eqb (shouldAutoScroll old) (shouldAutoScroll new))
  || negb (Bool.eqb (isAtBottom old) (isAtBottom new)).

Definition commit (old new : state) : state :=
  if depsChanged old new then autoScrollEffect new else new.

Definition step (st : state) (ev : event) : state :=
  commit st (handle ev st).

Definition run (evs : list event) (st : state) : state :=
  fold_left step evs st.

Definition mount (streaming : bool) (len : nat) (c : container) : state :=
  autoScrollEffect
    (mkState true true false false streaming len (Some c) true None 0%N 1 [] [] []).

(** The container's offsets say the view is at the bottom, as [handleScroll]
    computes it. *)
Definition offsetsAtBottom (c : container) : bool :=
  (scrollHeight c - clientHeight c <=? scrollTop c + 1)%Z.

(** Every pending timer is the one [scrollTimeoutRef] holds. *)
Definition timersTracked (st : state) : Prop :=
  forall t, In t (timers st) -> scrollTimeoutRef st = Some (timerId t).

(** The first statement of [handleScroll]: the pending timer is cleared. *)
Definition cleared (st : state) : state :=
  match scrollTimeoutRef st with
  | Some id => clearTimeout id st
  | None => st
  end.

(** The view is at the bottom with the user-scrolling state still set, and
    the one pending timer is the release [handleScroll] has just set. *)
Definition awaitingRelease (c : container) (st : state) : Prop :=
  isAtBottom st = true /\
  shouldAutoScroll st = true /\
  isUserScrolling st = true /\
  chatMessagesRef st = Some c /\
  exists id,
    scrollTimeoutRef st = Some id /\
    timers st = [mkTimer id (clock st + 150)%N (MarkNotScrolling true)].

(** Scroll events that follow one another, each [gap] after the one before. *)
Definition scrollBurst (gaps : list N) : list event :=
  ScrollEvent :: flat_map (fun gap => [Elapse gap; ScrollEvent]) gaps.

End Offset.

(** * Properties *)

(** ** Which events write which flag of the observer hook *)

Definition isIntersection (ev : Observer.event) : bool :=
  match ev with
  | Observer.Intersection _ => true
  | _ => false
  end.

(** The events whose handlers call [setShouldAutoScroll] or [setIsUserScrolling]. *)
Definition writesFollow (ev : Observer.event) : bool :=
  match ev with
  | Observer.Intersection _ | Observer.ScrollEvent | Observer.JumpToBottomClick => true
  | _ => false
  end.

(** The events that can end in a call of [setIsLoadingOldMessages]. *)
Definition writesLoading (ev : Observer.event) : bool :=
  match ev with
  | Observer.LoadOldMessagesClick | Observer.CallSetIsLoadingOldMessages _
  | Observer.Elapse _ => true
  | _ => false
  end.

(** The [smooth] arguments of the scrolls requested for the next frame. *)
Definition requestedScrolls (fs : list Observer.frameCallback) : list bool :=
  flat_map (fun cb => match cb with
                      | Observer.AutoScroll smooth => [smooth]
                      | Observer.Compensate _ _ => []
                      end) fs.

(** Message counts that grow with every render, starting above [n]. *)
Fixpoint growingFrom (n : nat) (lens : list nat) : bool :=
  match lens with
  | [] => true
  | len :: lens' => Nat.ltb n len && growingFrom len lens'
  end.

(** The events that neither report the anchor visible nor ask for a scroll:
    everything but a click on the button, a call of [scrollToBottom] and an
    observer report with a visible entry. *)
Definition passive (ev : Observer.event) : bool :=
  match ev with
  | Observer.Intersection entries => forallb negb entries
  | Observer.JumpToBottomClick | Observer.CallScrollToBottom _ => false
  | _ => true
  end.

(** Auto-scroll is off and no scroll is queued. *)
Definition followOff (st : Observer.state) : Prop :=
  Observer.shouldAutoScroll st = false /\ requestedScrolls (Observer.frames st) = [].

(** The time an event lets pass, and the time a sequence of events takes. *)
Definition elapsedOf (ev : Observer.event) : N :=
  match ev with
  | Observer.Elapse ms => ms
  | _ => 0%N
  end.

Definition elapsed (evs : list Observer.event) : N :=
  fold_right (fun ev total => (elapsedOf ev + total)%N) 0%N evs.


(** The host calls [setIsLoadingOldMessages(false)] itself. *)
Definition releasesByHand (ev : Observer.event) : bool :=
  match ev with
  | Observer.CallSetIsLoadingOldMessages false => true
  | _ => false
  end.

(** ** The input box of the [ChatAutoScroll] component *)

Module Chat.

(** A JavaScript string is a sequence of UTF-16 code units. *)
Definition jsString : Type := list N.

(** The code units [String.prototype.trim] strips: the WhiteSpace and
    LineTerminator characters of ECMAScript. *)
Definition isWhiteSpace (u : N) : bool :=
  ((u =? 9) || (u =? 10) || (u =? 11) || (u =? 12) || (u =? 13) || (u =? 32)
   || (u =? 160) || (u =? 5760) || ((8192 <=? u) && (u <=? 8202))
   || (u =? 8232) || (u =? 8233) || (u =? 8239) || (u =? 8287)
   || (u =? 12288) || (u =? 65279))%N.

Fixpoint trimStart (s : jsString) : jsString :=
  match s with
  | [] => []
  | u :: s' => if isWhiteSpace u then trimStart s' else s
  end.

Definition trimEnd (s : jsString) : jsString := rev (trimStart (rev s)).

(** [s.trim()] *)
Definition trim (s : jsString) : jsString := trimEnd (trimStart s).

(** A string is falsy exactly when it is empty. *)
Definition falsy (s : jsString) : bool :=
  match s with
  | [] => true
  | _ :: _ => false
  end.

Record state : Type := mkState {
  inputValue : jsString;                  (* useState('') *)
  hook : Observer.state;                  (* the state of useAutoScroll *)
  sentMessages : list jsString            (* the onSendMessage calls made so far *)
}.

(** [onChange={(e) => setInputValue(e.target.value)}] *)
Definition setInputValue (v : jsString) (ch : state) : state :=
  mkState v (hook ch) (sentMessages ch).

Definition handleSendMessage (ch : state) : state :=
  let message := trim (inputValue ch) in
  if falsy message || Observer.isStreaming (hook ch) then ch
  else
    mkState [] (Observer.scrollToBottom true (hook ch)) (sentMessages ch ++ [message]).

(** The [disabled] attribute of the send button. *)
Definition sendDisabled (ch : state) : bool :=
  Observer.isStreaming (hook ch) || falsy (trim (inputValue ch)).

(** The fields of the keyboard event that [handleKeyDown] reads. *)
Record keyboardEvent : Type := mkKeyboardEvent {
  isEnterKey : bool;                      (* e.key === 'Enter' *)
  shiftKey : bool
}.

(** [handleKeyDown]: whether [e.preventDefault()] was called, and the state. *)
Definition handleKeyDown (e : keyboardEvent) (ch : state) : bool * state :=
  if isEnterKey e && negb (shiftKey e)
  then (true, handleSendMessage ch)
  else (false, ch).

End Chat.

Lemma last_cons_default (A : Type) (l : list A) : forall x d, last (x :: l) d = last l x.
Proof.
  induction l as [|y l IH]; intros x d.
  - reflexivity.
  - change (last (x :: y :: l) d) with (last (y :: l) d).
    now rewrite !IH.
Qed.

(** ** Timer queue facts *)

Section TimerQueueFacts.
Variable callback : Type.
Implicit Types (t u : timer callback) (q : list (timer callback)).

Lemma in_enqueue t u q : In u (enqueue t q) <-> u = t \/ In u q.
Proof.
  induction q as [|v q IH]; simpl.
  - intuition congruence.
  - destruct (due v <=? due t)%N; simpl; rewrite ?IH; intuition congruence.
Qed.

Lemma in_cancel id u q : In u (cancel id q) <-> In u q /\ timerId u <> id.
Proof.
  unfold cancel. rewrite filter_In, negb_true_iff, Nat.eqb_neq. tauto.
Qed.

Lemma in_expired now u q : In u (expired now q) <-> In u q /\ (due u <= now)%N.
Proof.
  unfold expired, isDue. rewrite filter_In, N.leb_le. tauto.
Qed.

Lemma in_waiting now u q : In u (waiting now q) <-> In u q /\ (now < due u)%N.
Proof.
  unfold waiting, isDue. rewrite filter_In, negb_true_iff, N.leb_gt. tauto.
Qed.
End TimerQueueFacts.

(** ** The hook with a programmatic-scroll guard *)

Module ObserverFacts.
Import Observer.

Lemma depsChanged_same st : depsChanged st st = false.
Proof.
  unfold depsChanged. now rewrite Nat.eqb_refl, !eqb_reflx.
Qed.

Lemma commit_same st : commit st st = st.
Proof. unfold commit. now rewrite depsChanged_same. Qed.

(** Committing a render only ever adds a frame request. *)
Lemma commit_cases old new :
  commit old new = new \/
  commit old new = requestAnimationFrame (AutoScroll (negb (isStreaming new))) new.
Proof.
  unfold commit, autoScrollEffect.
  destruct (depsChanged old new); [destruct (shouldAutoScroll new && isAtBottom new)|]; auto.
Qed.

Ltac commit_field :=
  match goal with
  | |- context [commit ?old ?new] =>
      destruct (commit_cases old new) as [E|E]; rewrite E; reflexivity
  end.

Lemma commit_isAtBottom old new : isAtBottom (commit old new) = isAtBottom new.
Proof. commit_field. Qed.
Lemma commit_shouldAutoScroll old new :
  shouldAutoScroll (commit old new) = shouldAutoScroll new.
Proof. commit_field. Qed.
Lemma commit_isUserScrolling old new :
  isUserScrolling (commit old new) = isUserScrolling new.
Proof. commit_field. Qed.
Lemma commit_isLoadingOldMessages old new :
  isLoadingOldMessages (commit old new) = isLoadingOldMessages new.
Proof. commit_field. Qed.
Lemma commit_programmatic old new :
  isScrollingProgrammaticallyRef (commit old new) = isScrollingProgrammaticallyRef new.
Proof. commit_field. Qed.
Lemma commit_chatMessagesRef old new :
  chatMessagesRef (commit old new) = chatMessagesRef new.
Proof. commit_field. Qed.
Lemma commit_timers old new : timers (commit old new) = timers new.
Proof. commit_field. Qed.
Lemma commit_clock old new : clock (commit old new) = clock new.
Proof. commit_field. Qed.
Lemma commit_scrollLog old new : scrollLog (commit old new) = scrollLog new.
Proof. commit_field. Qed.

Create Rewrite HintDb commit_proj.
#[global] Hint Rewrite commit_isAtBottom commit_shouldAutoScroll commit_isUserScrolling
  commit_isLoadingOldMessages commit_programmatic commit_chatMessagesRef
  commit_timers commit_clock commit_scrollLog : commit_proj.

(** The flags the observer callback leaves alone while a programmatic
    scroll is in flight, and what it writes to [isAtBottom]. *)
Lemma observerCallback_in_flight entries : forall was st,
  isScrollingProgrammaticallyRef st = true ->
  let st' := fold_left (observeEntry was) entries st in
  isAtBottom st' = last entries (isAtBottom st) /\
  shouldAutoScroll st' = shouldAutoScroll st /\
  isUserScrolling st' = isUserScrolling st /\
  isLoadingOldMessages st' = isLoadingOldMessages st /\
  isScrollingProgrammaticallyRef st' = true.
Proof.
  induction entries as [|e es IH]; intros was st Hp; simpl.
  - auto.
  - assert (Hstep : observeEntry was st e = setIsAtBottom e st).
    { unfold observeEntry. simpl. rewrite Hp. simpl. now rewrite andb_false_r. }
    rewrite Hstep.
    destruct (IH was (setIsAtBottom e st) Hp) as (Ha & Hs & Hu & Hl & Hq).
    simpl in Ha, Hs, Hu, Hl.
    split; [|now auto].
    rewrite Ha. symmetry. apply last_cons_default.
Qed.

Lemma handleScroll_in_flight st :
  isScrollingProgrammaticallyRef st = true -> handleScroll st = st.
Proof. unfold handleScroll. now intros ->. Qed.

Lemma commit_no_deps old new :
  messagesLength old = messagesLength new ->
  isStreaming old = isStreaming new ->
  shouldAutoScroll old = shouldAutoScroll new ->
  isAtBottom old = isAtBottom new ->
  commit old new = new.
Proof.
  intros E1 E2 E3 E4. unfold commit, depsChanged.
  now rewrite E1, E2, E3, E4, Nat.eqb_refl, !eqb_reflx.
Qed.

(** *** Timers firing *)

Lemma existsb_enqueue (f : timer timerCallback -> bool) t q :
  existsb f (enqueue t q) = f t || existsb f q.
Proof.
  induction q as [|u q IH]; simpl.
  - reflexivity.
  - destruct (due u <=? due t)%N; simpl; [rewrite IH|]; destruct (f t), (f u); reflexivity.
Qed.

Lemma existsb_filter_false (A : Type) (f g : A -> bool) l :
  existsb f l = false -> existsb f (filter g l) = false.
Proof.
  induction l as [|x l IH]; simpl; [auto|].
  intros H. apply orb_false_iff in H. destruct H as [Hx Hl].
  destruct (g x); simpl; [rewrite Hx|]; auto.
Qed.

Lemma fireTimers_fields l : forall st,
  let st' := fold_left fireTimer l st in
  isScrollingProgrammaticallyRef st' =
    (if existsb resetsProgrammatic l then false else isScrollingProgrammaticallyRef st) /\
  isLoadingOldMessages st' =
    (if existsb releasesLoading l then false else isLoadingOldMessages st) /\
  isAtBottom st' = isAtBottom st /\
  shouldAutoScroll st' = shouldAutoScroll st /\
  isUserScrolling st' = isUserScrolling st /\
  chatMessagesRef st' = chatMessagesRef st /\
  timers st' = timers st /\
  frames st' = frames st /\
  clock st' = clock st.
Proof.
  induction l as [|t l IH]; intros st; simpl.
  - repeat split.
  - destruct (IH (fireTimer st t)) as (Ep & El & Ea & Es & Eu & Ec & Et & Ef & Ek).
    rewrite Ep, El, Ea, Es, Eu, Ec, Et, Ef, Ek.
    unfold fireTimer, resetsProgrammatic, releasesLoading.
    destruct (action t); simpl;
      repeat split;
      repeat match goal with
             | |- context [existsb ?f l] => destruct (existsb f l)
             end; reflexivity.
Qed.

(** *** Frame callbacks *)

Lemma scrollToBottom_fields smooth st :
  let st' := scrollToBottom smooth st in
  isLoadingOldMessages st' = isLoadingOldMessages st /\
  chatMessagesRef st' = chatMessagesRef st /\
  messagesEndRef st' = messagesEndRef st /\
  clock st' = clock st /\
  frames st' = frames st /\
  existsb releasesLoading (timers st') = existsb releasesLoading (timers st).
Proof.
  unfold scrollToBottom. destruct (messagesEndRef st) eqn:Hm; simpl.
  - rewrite existsb_enqueue. simpl. repeat split; auto.
  - repeat split; auto.
Qed.

(** The frame callbacks never change the container's extents. *)
Lemma runFrames_extent l : forall st c,
  chatMessagesRef st = Some c ->
  exists c', chatMessagesRef (fold_left runFrame l st) = Some c' /\
             scrollHeight c' = scrollHeight c /\ clientHeight c' = clientHeight c.
Proof.
  induction l as [|cb l IH]; intros st c Hc; simpl.
  - now exists c.
  - destruct cb as [smooth|hb tb].
    + simpl. apply IH.
      destruct (scrollToBottom_fields smooth st) as (_ & -> & _). exact Hc.
    + simpl. rewrite Hc.
      edestruct IH as (c' & Hc' & Hh & Hk); [|exists c'; split; [exact Hc'|]].
      * simpl. reflexivity.
      * simpl in Hh, Hk. auto.
Qed.

(** With no compensation among them, frame callbacks neither touch
    [isLoadingOldMessages] nor start a timer that would. *)
Lemma runFrames_no_release l : forall st,
  existsb compensates l = false ->
  let st' := fold_left runFrame l st in
  isLoadingOldMessages st' = isLoadingOldMessages st /\
  chatMessagesRef st' = chatMessagesRef st /\
  frames st' = frames st /\
  existsb releasesLoading (timers st') = existsb releasesLoading (timers st).
Proof.
  induction l as [|cb l IH]; intros st Hl; simpl.
  - auto.
  - simpl in Hl. apply orb_false_iff in Hl. destruct Hl as [Hcb Hl].
    destruct cb as [smooth|hb tb]; [|discriminate].
    destruct (IH (runFrame st (AutoScroll smooth)) Hl) as (E1 & E2 & E3 & E4).
    destruct (scrollToBottom_fields smooth st) as (F1 & F2 & _ & _ & F3 & F4).
    simpl in *. rewrite E1, E2, E3, E4. auto.
Qed.

Lemma runFrame_clock st cb : clock (runFrame st cb) = clock st.
Proof.
  destruct cb as [smooth|hb tb]; simpl.
  - now destruct (scrollToBottom_fields smooth st) as (_ & _ & _ & -> & _).
  - destruct (chatMessagesRef st); reflexivity.
Qed.

Lemma runFrames_clock l : forall st, clock (fold_left runFrame l st) = clock st.
Proof.
  induction l as [|cb l IH]; intros st; simpl; [reflexivity|].
  now rewrite IH, runFrame_clock.
Qed.

(** A frame whose last callback is a compensation ends by starting the
    500 ms release timer. *)
Lemma animationFrame_starts_release st l hb tb :
  frames st = l ++ [Compensate hb tb] ->
  clock (animationFrame st) = clock st /\
  exists t, In t (timers (animationFrame st)) /\
            due t = (clock st + 500)%N /\ releasesLoading t = true.
Proof.
  intros Hf. unfold animationFrame. rewrite Hf, fold_left_app.
  set (s := fold_left runFrame l _).
  assert (Hk : clock s = clock st) by (subst s; now rewrite runFrames_clock).
  change (fold_left runFrame [Compensate hb tb] s) with (runFrame s (Compensate hb tb)).
  split; [now rewrite runFrame_clock|].
  unfold runFrame. cbv zeta.
  match goal with
  | |- context [setTimeout ReleaseLoading 500%N ?s'] =>
      set (s1 := s'); assert (Hk1 : clock s1 = clock s)
        by (subst s1; destruct (chatMessagesRef s); reflexivity)
  end.
  exists (mkTimer (nextTimerId s1) (clock s1 + 500)%N ReleaseLoading).
  split; [|split].
  - simpl. apply in_enqueue. now left.
  - simpl. now rewrite Hk1, Hk.
  - reflexivity.
Qed.

End ObserverFacts.

(** ** The hook of [useAutoScroll.ts] *)

Module OffsetFacts.
Import Offset.

Lemma offset_commit_cases old new :
  commit old new = new \/
  commit old new = requestAnimationFrame (negb (isStreaming new)) new.
Proof.
  unfold commit, autoScrollEffect.
  destruct (depsChanged old new); [destruct (shouldAutoScroll new && isAtBottom new)|]; auto.
Qed.

Ltac offset_commit_field :=
  match goal with
  | |- context [commit ?old ?new] =>
      destruct (offset_commit_cases old new) as [E|E]; rewrite E; reflexivity
  end.

Lemma offset_commit_isAtBottom old new : isAtBottom (commit old new) = isAtBottom new.
Proof. offset_commit_field. Qed.
Lemma offset_commit_shouldAutoScroll old new :
  shouldAutoScroll (commit old new) = shouldAutoScroll new.
Proof. offset_commit_field. Qed.
Lemma offset_commit_isUserScrolling old new :
  isUserScrolling (commit old new) = isUserScrolling new.
Proof. offset_commit_field. Qed.
Lemma offset_commit_isLoadingOldMessages old new :
  isLoadingOldMessages (commit old new) = isLoadingOldMessages new.
Proof. offset_commit_field. Qed.
Lemma offset_commit_isStreaming old new : isStreaming (commit old new) = isStreaming new.
Proof. offset_commit_field. Qed.
Lemma offset_commit_chatMessagesRef old new :
  chatMessagesRef (commit old new) = chatMessagesRef new.
Proof. offset_commit_field. Qed.
Lemma offset_commit_scrollTimeoutRef old new :
  scrollTimeoutRef (commit old new) = scrollTimeoutRef new.
Proof. offset_commit_field. Qed.
Lemma offset_commit_timers old new : timers (commit old new) = timers new.
Proof. offset_commit_field. Qed.
Lemma offset_commit_clock old new : clock (commit old new) = clock new.
Proof. offset_commit_field. Qed.

Lemma offset_commit_scrollLog old new : scrollLog (commit old new) = scrollLog new.
Proof. offset_commit_field. Qed.

Create Rewrite HintDb offset_proj.
#[global] Hint Rewrite offset_commit_isAtBottom offset_commit_shouldAutoScroll offset_commit_isUserScrolling
  offset_commit_isLoadingOldMessages offset_commit_isStreaming offset_commit_chatMessagesRef
  offset_commit_scrollTimeoutRef offset_commit_timers offset_commit_clock offset_commit_scrollLog : offset_proj.

(** *** [scrollTimeoutRef] tracks every pending timer *)

Lemma timersTracked_commit old new : timersTracked new -> timersTracked (commit old new).
Proof.
  unfold timersTracked. now autorewrite with offset_proj.
Qed.

Lemma cleared_timers st : timersTracked st -> timers (cleared st) = [].
Proof.
  unfold timersTracked, cleared. intros Htr.
  destruct (scrollTimeoutRef st) as [id|] eqn:Href.
  - simpl. destruct (cancel id (timers st)) as [|t q] eqn:Hc; [reflexivity|].
    assert (Hin : In t (cancel id (timers st))) by (rewrite Hc; now left).
    apply in_cancel in Hin. destruct Hin as [Hin Hne].
    apply Htr in Hin. congruence.
  - destruct (timers st) as [|t q]; [reflexivity|].
    specialize (Htr t (or_introl eq_refl)). discriminate.
Qed.

Lemma cleared_fields st :
  isAtBottom (cleared st) = isAtBottom st /\
  shouldAutoScroll (cleared st) = shouldAutoScroll st /\
  isUserScrolling (cleared st) = isUserScrolling st /\
  isLoadingOldMessages (cleared st) = isLoadingOldMessages st /\
  isStreaming (cleared st) = isStreaming st /\
  chatMessagesRef (cleared st) = chatMessagesRef st /\
  clock (cleared st) = clock st /\
  nextTimerId (cleared st) = nextTimerId st.
Proof.
  unfold cleared. destruct (scrollTimeoutRef st); simpl; repeat split.
Qed.

Lemma handleScroll_cleared st :
  handleScroll st =
  match chatMessagesRef (cleared st) with
  | None => cleared st
  | Some container =>
      let atBottom := offsetsAtBottom container in
      let st1 := setIsAtBottom atBottom (cleared st) in
      let st2 :=
        if negb atBottom && negb (isStreaming st1)
        then setShouldAutoScroll false (setIsUserScrolling true st1)
        else st1 in
      if atBottom then
        setScrollTimeoutRef (Some (nextTimerId st2))
          (snd (setTimeout (MarkNotScrolling atBottom) 150%N (setShouldAutoScroll true st2)))
      else st2
  end.
Proof.
  unfold handleScroll, cleared, offsetsAtBottom.
  destruct (chatMessagesRef _) as [c|]; [|reflexivity].
  simpl. destruct (_ <=? _)%Z; reflexivity.
Qed.

(** A scroll event that finds the offsets at the bottom. *)
Lemma handleScroll_at_bottom st c :
  timersTracked st ->
  chatMessagesRef st = Some c ->
  offsetsAtBottom c = true ->
  let st' := handleScroll st in
  isAtBottom st' = true /\
  shouldAutoScroll st' = true /\
  isUserScrolling st' = isUserScrolling st /\
  isLoadingOldMessages st' = isLoadingOldMessages st /\
  chatMessagesRef st' = Some c /\
  clock st' = clock st /\
  scrollTimeoutRef st' = Some (nextTimerId st) /\
  timers st' = [mkTimer (nextTimerId st) (clock st + 150)%N (MarkNotScrolling true)].
Proof.
  intros Htr Hc Hb. cbv zeta. rewrite handleScroll_cleared.
  destruct (cleared_fields st) as (Ea & Es & Eu & El & Est & Ec & Ek & En).
  pose proof (cleared_timers Htr) as Et.
  rewrite Ec, Hc. cbv zeta. rewrite Hb. simpl.
  rewrite Eu, El, Ec, Ek, En, Et, Hc. simpl. repeat split.
Qed.

Lemma timersTracked_handleScroll st : timersTracked st -> timersTracked (handleScroll st).
Proof.
  intros Htr. pose proof (cleared_timers Htr) as Et.
  rewrite handleScroll_cleared.
  destruct (chatMessagesRef (cleared st)) as [c|] eqn:Hc.
  - cbv zeta. destruct (offsetsAtBottom c); simpl.
    + unfold timersTracked. simpl. rewrite Et. simpl.
      intros t [<-|[]]. reflexivity.
    + unfold timersTracked.
      destruct (negb (isStreaming (cleared st))); simpl; rewrite Et; intros t [].
  - unfold timersTracked. rewrite Et. intros t [].
Qed.

(** Firing timers writes [isUserScrolling] only. *)
Lemma offset_fireTimers_fields l : forall st,
  let st' := fold_left fireTimer l st in
  isAtBottom st' = isAtBottom st /\
  shouldAutoScroll st' = shouldAutoScroll st /\
  isLoadingOldMessages st' = isLoadingOldMessages st /\
  chatMessagesRef st' = chatMessagesRef st /\
  scrollTimeoutRef st' = scrollTimeoutRef st /\
  timers st' = timers st /\
  clock st' = clock st.
Proof.
  induction l as [|t l IH]; intros st; simpl.
  - repeat split.
  - destruct (IH (fireTimer st t)) as (Ea & Es & El & Ec & Er & Et & Ek).
    rewrite Ea, Es, El, Ec, Er, Et, Ek.
    unfold fireTimer. destruct (action t) as [[|]]; repeat split.
Qed.

Lemma timersTracked_elapse ms st : timersTracked st -> timersTracked (elapse ms st).
Proof.
  unfold timersTracked, elapse. intros Htr t.
  match goal with
  | |- context [fold_left fireTimer ?l ?s] =>
      destruct (offset_fireTimers_fields l s) as (_ & _ & _ & _ & Er & Et & _)
  end.
  rewrite Er, Et. simpl. intros Hin. apply in_waiting in Hin. now apply Htr.
Qed.

Lemma observerCallback_timers entries : forall st,
  timers (observerCallback entries st) = timers st /\
  scrollTimeoutRef (observerCallback entries st) = scrollTimeoutRef st.
Proof.
  unfold observerCallback.
  induction entries as [|e es IH]; intros st; simpl; [auto|].
  destruct (IH (setIsAtBottom e st)) as [Et Er]. now rewrite Et, Er.
Qed.

Lemma scrollToBottom_timers smooth st :
  timers (scrollToBottom smooth st) = timers st /\
  scrollTimeoutRef (scrollToBottom smooth st) = scrollTimeoutRef st.
Proof. unfold scrollToBottom. destruct (chatMessagesRef st); auto. Qed.

Lemma animationFrame_timers st :
  timers (animationFrame st) = timers st /\
  scrollTimeoutRef (animationFrame st) = scrollTimeoutRef st.
Proof.
  unfold animationFrame.
  assert (H : forall l s,
    timers (fold_left (fun acc smooth => scrollToBottom smooth acc) l s) = timers s /\
    scrollTimeoutRef (fold_left (fun acc smooth => scrollToBottom smooth acc) l s)
    = scrollTimeoutRef s).
  { induction l as [|b l IH]; intros s; simpl; [auto|].
    destruct (IH (scrollToBottom b s)) as [Et Er].
    destruct (scrollToBottom_timers b s) as [Et' Er']. now rewrite Et, Er. }
  destruct (H (frames st) (setScheduler (clock st) (nextTimerId st) (timers st) [] st))
    as [Et Er].
  now rewrite Et, Er.
Qed.

Lemma timersTracked_step st ev : timersTracked st -> timersTracked (step st ev).
Proof.
  intros Htr. unfold step. apply timersTracked_commit.
  destruct ev; simpl.
  - unfold timersTracked.
    destruct (observerCallback_timers entries st) as [-> ->]. exact Htr.
  - now apply timersTracked_handleScroll.
  - unfold timersTracked, handleScrollToBottom.
    match goal with
    | |- context [scrollToBottom true ?s] =>
        destruct (scrollToBottom_timers true s) as [-> ->]
    end. exact Htr.
  - unfold timersTracked. destruct (scrollToBottom_timers smooth st) as [-> ->]. exact Htr.
  - exact Htr.
  - exact Htr.
  - exact Htr.
  - unfold timersTracked. destruct (animationFrame_timers st) as [-> ->]. exact Htr.
  - now apply timersTracked_elapse.
  - unfold timersTracked, unmountCleanup.
    destruct (scrollTimeoutRef st) as [id|] eqn:Href; [|exact Htr].
    simpl. rewrite Href. intros t Hin. apply in_cancel in Hin.
    rewrite <- Href. apply Htr. tauto.
Qed.

Lemma timersTracked_run evs : forall st, timersTracked st -> timersTracked (run evs st).
Proof.
  unfold run. induction evs as [|ev evs IH]; intros st Htr; simpl; [exact Htr|].
  apply IH. now apply timersTracked_step.
Qed.

Lemma timersTracked_mount streaming len c : timersTracked (mount streaming len c).
Proof.
  unfold timersTracked, mount, autoScrollEffect. simpl. intros t [].
Qed.

Lemma awaitingRelease_tracked c st : awaitingRelease c st -> timersTracked st.
Proof.
  intros (_ & _ & _ & _ & id & Hr & Ht). unfold timersTracked.
  rewrite Ht, Hr. intros t [<-|[]]. reflexivity.
Qed.

(** The first scroll event of a burst. *)
Lemma scroll_starts_release st c :
  timersTracked st ->
  isUserScrolling st = true ->
  chatMessagesRef st = Some c ->
  offsetsAtBottom c = true ->
  awaitingRelease c (step st ScrollEvent) /\ clock (step st ScrollEvent) = clock st.
Proof.
  intros Htr Hu Hc Hb.
  destruct (handleScroll_at_bottom Htr Hc Hb) as (Ea & Es & Eu & _ & Ec & Ek & Er & Et).
  unfold awaitingRelease, step. simpl handle.
  autorewrite with offset_proj. rewrite Ea, Es, Eu, Ec, Er, Et, Ek.
  repeat split; auto. now exists (nextTimerId st).
Qed.

(** Less than 150 ms pass: the release has not fired and is still pending. *)
Lemma release_survives c st gap :
  awaitingRelease c st -> (gap < 150)%N ->
  let st' := step st (Elapse gap) in
  timersTracked st' /\ isUserScrolling st' = true /\ chatMessagesRef st' = Some c.
Proof.
  intros Hinv Hgap. cbv zeta.
  split. { apply timersTracked_step. eapply awaitingRelease_tracked; eauto. }
  destruct Hinv as (_ & _ & Hu & Hc & id & _ & Ht).
  unfold step. simpl handle. autorewrite with offset_proj.
  unfold elapse. rewrite Ht. unfold expired, waiting, isDue. simpl.
  assert (Hle : (clock st + 150 <=? clock st + gap)%N = false)
    by (apply N.leb_gt; lia).
  rewrite Hle. simpl. auto.
Qed.

Lemma release_renewed c st gap :
  offsetsAtBottom c = true ->
  awaitingRelease c st -> (gap < 150)%N ->
  awaitingRelease c (run [Elapse gap; ScrollEvent] st).
Proof.
  intros Hb Hinv Hgap. unfold run. simpl.
  destruct (release_survives Hinv Hgap) as (Htr & Hu & Hc).
  now apply scroll_starts_release.
Qed.

Lemma burst_keeps_release c gaps : forall st,
  offsetsAtBottom c = true ->
  awaitingRelease c st ->
  Forall (fun gap => (gap < 150)%N) gaps ->
  awaitingRelease c (run (flat_map (fun gap => [Elapse gap; ScrollEvent]) gaps) st).
Proof.
  induction gaps as [|gap gaps IH]; intros st Hb Hinv Hall.
  - exact Hinv.
  - inversion Hall as [|? ? Hgap Hrest]; subst.
    change (flat_map (fun gap => [Elapse gap; ScrollEvent]) (gap :: gaps))
      with ([Elapse gap; ScrollEvent] ++ flat_map (fun gap => [Elapse gap; ScrollEvent]) gaps).
    unfold run. rewrite fold_left_app. apply IH; auto.
    now apply release_renewed.
Qed.

(** Once 150 ms pass without a scroll event the release fires. *)
Lemma release_fires c st ms :
  awaitingRelease c st -> (150 <= ms)%N ->
  isUserScrolling (step st (Elapse ms)) = false.
Proof.
  intros (_ & _ & _ & _ & id & _ & Ht) Hms.
  unfold step. simpl handle. autorewrite with offset_proj.
  unfold elapse. rewrite Ht. unfold expired, waiting, isDue. simpl.
  assert (Hle : (clock st + 150 <=? clock st + ms)%N = true)
    by (apply N.leb_le; lia).
  rewrite Hle. reflexivity.
Qed.

End OffsetFacts.

(** * The specification's claims *)

(** ** The jump-to-bottom button *)

Lemma observer_button_iff (st : Observer.state) :
  Observer.showScrollButton st = true <->
  Observer.isAtBottom st = false /\
  Observer.isLoadingOldMessages st = false /\
  Observer.isUserScrolling st = true.
Proof.
  unfold Observer.showScrollButton.
  destruct (Observer.isAtBottom st), (Observer.isLoadingOldMessages st),
    (Observer.isUserScrolling st); simpl; intuition congruence.
Qed.

Lemma offset_button_iff (st : Offset.state) :
  Offset.showScrollButton st = true <->
  Offset.isAtBottom st = false /\
  Offset.isLoadingOldMessages st = false /\
  Offset.isUserScrolling st = true.
Proof.
  unfold Offset.showScrollButton.
  destruct (Offset.isAtBottom st), (Offset.isLoadingOldMessages st),
    (Offset.isUserScrolling st); simpl; intuition congruence.
Qed.

(** C1: after every sequence of events, in both versions of the hook, the
    jump-to-bottom button is shown if and only if [isAtBottom] is false,
    [isLoadingOldMessages] is false and [isUserScrolling] is true; so whenever
    the button is shown, [isAtBottom] is false. *)
Theorem button_shown_iff_flags :
  forall (streaming : bool) (len : nat) (c : container),
    (forall evs : list Observer.event,
        let st := Observer.run evs (Observer.mount streaming len c) in
        (Observer.showScrollButton st = true <->
         Observer.isAtBottom st = false /\
         Observer.isLoadingOldMessages st = false /\
         Observer.isUserScrolling st = true) /\
        (Observer.showScrollButton st = true -> Observer.isAtBottom st = false)) /\
    (forall evs : list Offset.event,
        let st := Offset.run evs (Offset.mount streaming len c) in
        (Offset.showScrollButton st = true <->
         Offset.isAtBottom st = false /\
         Offset.isLoadingOldMessages st = false /\
         Offset.isUserScrolling st = true) /\
        (Offset.showScrollButton st = true -> Offset.isAtBottom st = false)).
Proof.
  intros streaming len c. split; intros evs st.
  - split; [apply observer_button_iff|].
    intros H. now apply observer_button_iff in H.
  - split; [apply offset_button_iff|].
    intros H. now apply offset_button_iff in H.
Qed.

(** The user scrolled away from the bottom: the button is shown, and the
    invariant gives that the view is not at the bottom. *)
Lemma button_shown_iff_flags_witness :
  let st := Observer.run [Observer.Intersection [false]; Observer.ScrollEvent]
              (Observer.mount false 3 sampleContainer) in
  Observer.showScrollButton st = true /\ Observer.isAtBottom st = false.
Proof.
  intros st. split; [reflexivity|].
  destruct (button_shown_iff_flags false 3 sampleContainer) as [Hobs _].
  destruct (Hobs [Observer.Intersection [false]; Observer.ScrollEvent]) as [_ Himp].
  apply Himp. reflexivity.
Defined.

(** ** Events during a programmatic scroll *)

(** C2, as stated, fails on the observer callback: while the scroll started by
    the button is in flight, a report that the anchor left the view changes
    [isAtBottom]. *)
Lemma in_flight_report_changes_isAtBottom :
  let st := Observer.run [Observer.JumpToBottomClick]
              (Observer.mount false 3 sampleContainer) in
  Observer.isScrollingProgrammaticallyRef st = true /\
  Observer.flags (Observer.step st (Observer.Intersection [false])) <> Observer.flags st.
Proof.
  split; [reflexivity|]. vm_compute. discriminate.
Qed.

(** C2, amended: while [isScrollingProgrammaticallyRef] is set, a scroll event
    leaves the whole state as it is, and an observer report writes
    [isAtBottom] (the last reported value) and none of the other three flags. *)
Theorem in_flight_events_keep_flags :
  forall st : Observer.state,
    Observer.isScrollingProgrammaticallyRef st = true ->
    Observer.step st Observer.ScrollEvent = st /\
    (forall entries : list bool,
        let st' := Observer.step st (Observer.Intersection entries) in
        Observer.isAtBottom st' = last entries (Observer.isAtBottom st) /\
        Observer.shouldAutoScroll st' = Observer.shouldAutoScroll st /\
        Observer.isUserScrolling st' = Observer.isUserScrolling st /\
        Observer.isLoadingOldMessages st' = Observer.isLoadingOldMessages st).
Proof.
  intros st Hp. split.
  - unfold Observer.step. simpl.
    rewrite ObserverFacts.handleScroll_in_flight by exact Hp.
    apply ObserverFacts.commit_same.
  - intros entries st'. subst st'. unfold Observer.step. simpl.
    autorewrite with commit_proj. unfold Observer.observerCallback.
    destruct (ObserverFacts.observerCallback_in_flight entries (Observer.isAtBottom st) st Hp)
      as (Ha & Hs & Hu & Hl & _).
    repeat split; assumption.
Qed.

Lemma in_flight_events_keep_flags_witness :
  let st := Observer.run [Observer.JumpToBottomClick]
              (Observer.mount false 3 sampleContainer) in
  Observer.step st Observer.ScrollEvent = st /\
  Observer.isUserScrolling (Observer.step st (Observer.Intersection [false; true]))
  = Observer.isUserScrolling st.
Proof.
  intros st.
  destruct (in_flight_events_keep_flags st eq_refl) as [Hscroll Hobs].
  split; [exact Hscroll|].
  destruct (Hobs [false; true]) as (_ & _ & Hu & _). exact Hu.
Defined.

(** ** Content changes *)

(** C3: when the host renders with more messages or a toggled streaming flag,
    in both versions of the hook, a scroll to the bottom is requested for the
    next animation frame exactly when [shouldAutoScroll] and [isAtBottom] both
    hold, and the requested scroll is smooth exactly when the new streaming
    flag is off. *)
Theorem content_change_requests_scroll :
  (forall (st : Observer.state) (streaming : bool) (len : nat),
      Observer.messagesLength st < len \/ streaming <> Observer.isStreaming st ->
      Observer.frames (Observer.step st (Observer.Render streaming len)) =
      Observer.frames st ++
        (if Observer.shouldAutoScroll st && Observer.isAtBottom st
         then [Observer.AutoScroll (negb streaming)] else [])) /\
  (forall (st : Offset.state) (streaming : bool) (len : nat),
      Offset.messagesLength st < len \/ streaming <> Offset.isStreaming st ->
      Offset.frames (Offset.step st (Offset.Render streaming len)) =
      Offset.frames st ++
        (if Offset.shouldAutoScroll st && Offset.isAtBottom st
         then [negb streaming] else [])).
Proof.
  split; intros st streaming len Hchange.
  - unfold Observer.step, Observer.commit. simpl.
    assert (Hdeps : Observer.depsChanged st (Observer.setProps streaming len st) = true).
    { unfold Observer.depsChanged. simpl. destruct Hchange as [Hlen|Hstr].
      - apply Nat.lt_neq, Nat.eqb_neq in Hlen. now rewrite Hlen.
      - assert (E : Bool.eqb (Observer.isStreaming st) streaming = false)
          by (apply eqb_false_iff; congruence).
        rewrite E. simpl. now rewrite orb_true_r. }
    rewrite Hdeps. unfold Observer.autoScrollEffect. simpl.
    destruct (Observer.shouldAutoScroll st && Observer.isAtBottom st); simpl;
      now rewrite ?app_nil_r.
  - unfold Offset.step, Offset.commit. simpl.
    assert (Hdeps : Offset.depsChanged st (Offset.setProps streaming len st) = true).
    { unfold Offset.depsChanged. simpl. destruct Hchange as [Hlen|Hstr].
      - apply Nat.lt_neq, Nat.eqb_neq in Hlen. now rewrite Hlen.
      - assert (E : Bool.eqb (Offset.isStreaming st) streaming = false)
          by (apply eqb_false_iff; congruence).
        rewrite E. simpl. now rewrite orb_true_r. }
    rewrite Hdeps. unfold Offset.autoScrollEffect. simpl.
    destruct (Offset.shouldAutoScroll st && Offset.isAtBottom st); simpl;
      now rewrite ?app_nil_r.
Qed.

(** A fourth message arrives while streaming starts: the scroll requested next
    to the one of the mount is not smooth. *)
Lemma content_change_requests_scroll_witness :
  Observer.frames
    (Observer.step (Observer.mount false 3 sampleContainer) (Observer.Render true 4))
  = [Observer.AutoScroll true; Observer.AutoScroll false].
Proof.
  destruct content_change_requests_scroll as [Hobs _].
  rewrite (Hobs (Observer.mount false 3 sampleContainer) true 4).
  - reflexivity.
  - left. simpl. lia.
Defined.

(** ** Arriving at the bottom *)

(** C4, amended: in the hook with the programmatic-scroll ref, when the
    observer reports the anchor visible while [isAtBottom] is false (the
    previous report), the report sets [shouldAutoScroll] and clears
    [isUserScrolling] if no programmatic scroll is in flight, and leaves both
    as they are if one is. *)
Theorem report_at_bottom_resumes_follow :
  forall st : Observer.state,
    Observer.isAtBottom st = false ->
    let st' := Observer.step st (Observer.Intersection [true]) in
    Observer.isAtBottom st' = true /\
    (Observer.isScrollingProgrammaticallyRef st = false ->
     Observer.shouldAutoScroll st' = true /\ Observer.isUserScrolling st' = false) /\
    (Observer.isScrollingProgrammaticallyRef st = true ->
     Observer.shouldAutoScroll st' = Observer.shouldAutoScroll st /\
     Observer.isUserScrolling st' = Observer.isUserScrolling st).
Proof.
  intros st Hb st'. subst st'. unfold Observer.step. simpl.
  autorewrite with commit_proj.
  unfold Observer.observerCallback, Observer.observeEntry. simpl. rewrite Hb. simpl.
  split; [|split]; intros; destruct (Observer.isScrollingProgrammaticallyRef st);
    try discriminate; simpl; auto.
Qed.

(** The user scrolled up and comes back to the bottom by hand. *)
Lemma report_at_bottom_resumes_follow_witness :
  let st := Observer.run [Observer.Intersection [false]; Observer.ScrollEvent]
              (Observer.mount false 3 sampleContainer) in
  Observer.isUserScrolling st = true /\
  Observer.shouldAutoScroll st = false /\
  Observer.shouldAutoScroll (Observer.step st (Observer.Intersection [true])) = true /\
  Observer.isUserScrolling (Observer.step st (Observer.Intersection [true])) = false.
Proof.
  intros st. split; [reflexivity|]. split; [reflexivity|].
  destruct (report_at_bottom_resumes_follow st eq_refl) as (_ & Hclear & _).
  exact (Hclear eq_refl).
Defined.

(** C4, as stated, fails in the hook of [useAutoScroll.ts], which has no
    programmatic-scroll ref: the user scrolled up, the observer had reported
    the anchor hidden and now reports it visible, and the report sets
    [isAtBottom] only; auto-scroll stays off and [isUserScrolling] stays set. *)
Lemma offset_report_at_bottom_keeps_follow_off :
  let st := Offset.run [Offset.Intersection [false]; Offset.ScrollEvent]
              (Offset.mount false 3 sampleContainer) in
  let st' := Offset.step st (Offset.Intersection [true]) in
  Offset.isAtBottom st = false /\
  Offset.isAtBottom st' = true /\
  Offset.shouldAutoScroll st' = false /\
  Offset.isUserScrolling st' = true.
Proof.
  repeat split.
Qed.

(** In the hook of [useAutoScroll.ts] the observer callback writes
    [isAtBottom] and nothing else; there is no programmatic-scroll ref. *)
Remark offset_report_writes_isAtBottom_only :
  forall (st : Offset.state) (entries : list bool),
    let st' := Offset.step st (Offset.Intersection entries) in
    Offset.isAtBottom st' = last entries (Offset.isAtBottom st) /\
    Offset.shouldAutoScroll st' = Offset.shouldAutoScroll st /\
    Offset.isUserScrolling st' = Offset.isUserScrolling st /\
    Offset.isLoadingOldMessages st' = Offset.isLoadingOldMessages st.
Proof.
  intros st entries st'. subst st'. unfold Offset.step. simpl.
  autorewrite with offset_proj. unfold Offset.observerCallback.
  revert st. induction entries as [|e es IH]; intros st; simpl.
  - auto.
  - destruct (IH (Offset.setIsAtBottom e st)) as (Ha & Hs & Hu & Hl).
    simpl in Ha, Hs, Hu, Hl. rewrite Ha, Hs, Hu, Hl.
    split; [|auto]. symmetry. apply last_cons_default.
Qed.

(** ** Scrolling away from the bottom *)

(** C5: a scroll event handled with no programmatic scroll in flight and the
    view not at the bottom sets [isUserScrolling] and clears [shouldAutoScroll]
    when streaming is off, and changes neither when streaming is on.  In the
    hook of [useAutoScroll.ts], which has no programmatic-scroll ref, "not at
    the bottom" is what the container's offsets say. *)
Theorem scroll_away_stops_follow :
  (forall st : Observer.state,
      Observer.isScrollingProgrammaticallyRef st = false ->
      Observer.isAtBottom st = false ->
      let st' := Observer.step st Observer.ScrollEvent in
      (Observer.isStreaming st = false ->
       Observer.isUserScrolling st' = true /\ Observer.shouldAutoScroll st' = false) /\
      (Observer.isStreaming st = true ->
       Observer.isUserScrolling st' = Observer.isUserScrolling st /\
       Observer.shouldAutoScroll st' = Observer.shouldAutoScroll st)) /\
  (forall (st : Offset.state) (c : container),
      Offset.chatMessagesRef st = Some c ->
      Offset.offsetsAtBottom c = false ->
      let st' := Offset.step st Offset.ScrollEvent in
      (Offset.isStreaming st = false ->
       Offset.isUserScrolling st' = true /\ Offset.shouldAutoScroll st' = false) /\
      (Offset.isStreaming st = true ->
       Offset.isUserScrolling st' = Offset.isUserScrolling st /\
       Offset.shouldAutoScroll st' = Offset.shouldAutoScroll st)).
Proof.
  split.
  - intros st Hp Hb st'. subst st'. unfold Observer.step. simpl.
    autorewrite with commit_proj. unfold Observer.handleScroll.
    rewrite Hp, Hb. simpl.
    split; intros Hs; rewrite Hs; simpl; auto.
  - intros st c Hc Hb st'. subst st'. unfold Offset.step. simpl.
    autorewrite with offset_proj. rewrite OffsetFacts.handleScroll_cleared.
    destruct (OffsetFacts.cleared_fields st) as (Ea & Es & Eu & El & Est & Ec & Ek & En).
    rewrite Ec, Hc. cbv zeta. rewrite Hb. simpl. rewrite Est.
    split; intros Hs; rewrite Hs; simpl; auto.
Qed.

(** Scenario B of the specification: the user scrolls up while nothing is
    streaming. *)
Lemma scroll_away_stops_follow_witness :
  let st := Observer.run [Observer.Intersection [false]]
              (Observer.mount false 3 sampleContainer) in
  Observer.isUserScrolling (Observer.step st Observer.ScrollEvent) = true /\
  Observer.shouldAutoScroll (Observer.step st Observer.ScrollEvent) = false /\
  Observer.showScrollButton (Observer.step st Observer.ScrollEvent) = true.
Proof.
  intros st.
  destruct scroll_away_stops_follow as [Hobs _].
  destruct (Hobs st eq_refl eq_refl) as [Hidle _].
  destruct (Hidle eq_refl) as [Hu Hs].
  split; [exact Hu|]. split; [exact Hs|]. reflexivity.
Defined.

(** ** The jump-to-bottom button's click *)

Lemma observer_scrollToBottom_follow smooth st :
  Observer.shouldAutoScroll (Observer.scrollToBottom smooth st) = Observer.shouldAutoScroll st /\
  Observer.isUserScrolling (Observer.scrollToBottom smooth st) = Observer.isUserScrolling st /\
  Observer.scrollLog (Observer.scrollToBottom smooth st) =
    Observer.scrollLog st ++ (if Observer.messagesEndRef st then [smooth] else []).
Proof.
  unfold Observer.scrollToBottom. destruct (Observer.messagesEndRef st); simpl;
    rewrite ?app_nil_r; auto.
Qed.

Lemma offset_scrollToBottom_follow smooth st :
  Offset.shouldAutoScroll (Offset.scrollToBottom smooth st) = Offset.shouldAutoScroll st /\
  Offset.isUserScrolling (Offset.scrollToBottom smooth st) = Offset.isUserScrolling st /\
  Offset.scrollLog (Offset.scrollToBottom smooth st) =
    Offset.scrollLog st ++
      match Offset.chatMessagesRef st with
      | Some c => [(scrollHeight c, smooth)]
      | None => []
      end.
Proof.
  unfold Offset.scrollToBottom. destruct (Offset.chatMessagesRef st); simpl;
    rewrite ?app_nil_r; auto.
Qed.

(** C6: in both versions of the hook, whatever [isAtBottom] is, a click on the
    jump-to-bottom button sets [shouldAutoScroll], clears [isUserScrolling]
    and then calls [scrollToBottom(true)], which scrolls smoothly whenever the
    element it scrolls to is mounted; a second click right after the first
    leaves [shouldAutoScroll] set and [isUserScrolling] cleared. *)
Theorem jump_to_bottom_click :
  (forall st : Observer.state,
      let st1 := Observer.step st Observer.JumpToBottomClick in
      let st2 := Observer.step st1 Observer.JumpToBottomClick in
      Observer.handleScrollToBottom st =
        Observer.scrollToBottom true
          (Observer.setIsUserScrolling false (Observer.setShouldAutoScroll true st)) /\
      Observer.shouldAutoScroll st1 = true /\
      Observer.isUserScrolling st1 = false /\
      Observer.scrollLog st1 =
        Observer.scrollLog st ++ (if Observer.messagesEndRef st then [true] else []) /\
      Observer.shouldAutoScroll st2 = true /\
      Observer.isUserScrolling st2 = false) /\
  (forall st : Offset.state,
      let st1 := Offset.step st Offset.JumpToBottomClick in
      let st2 := Offset.step st1 Offset.JumpToBottomClick in
      Offset.handleScrollToBottom st =
        Offset.scrollToBottom true
          (Offset.setIsUserScrolling false (Offset.setShouldAutoScroll true st)) /\
      Offset.shouldAutoScroll st1 = true /\
      Offset.isUserScrolling st1 = false /\
      Offset.scrollLog st1 =
        Offset.scrollLog st ++
          match Offset.chatMessagesRef st with
          | Some c => [(scrollHeight c, true)]
          | None => []
          end /\
      Offset.shouldAutoScroll st2 = true /\
      Offset.isUserScrolling st2 = false).
Proof.
  split; intros st st1 st2; subst st1 st2.
  - unfold Observer.step. simpl. autorewrite with commit_proj.
    unfold Observer.handleScrollToBottom.
    pose proof (fun s => proj1 (observer_scrollToBottom_follow true s)) as Hs.
    pose proof (fun s => proj1 (proj2 (observer_scrollToBottom_follow true s))) as Hu.
    pose proof (fun s => proj2 (proj2 (observer_scrollToBottom_follow true s))) as Hl.
    rewrite ?Hs, ?Hu, ?Hl. simpl. repeat split.
  - unfold Offset.step. simpl. autorewrite with offset_proj.
    unfold Offset.handleScrollToBottom.
    pose proof (fun s => proj1 (offset_scrollToBottom_follow true s)) as Hs.
    pose proof (fun s => proj1 (proj2 (offset_scrollToBottom_follow true s))) as Hu.
    pose proof (fun s => proj2 (proj2 (offset_scrollToBottom_follow true s))) as Hl.
    rewrite ?Hs, ?Hu, ?Hl. simpl. repeat split.
Qed.

(** ** Keeping the position when older messages are inserted *)

(** C7: after a click on "Load Old Messages" with the container mounted and
    its offset in range, an insertion that grows the container's scroll height
    (the viewport no taller than before) and the next animation frame leave the
    scroll offset at the offset before the insertion plus the growth of the
    scroll height. *)
Theorem prepend_keeps_position :
  forall (st : Observer.state) (c c' : container) (anchor : bool),
    Observer.chatMessagesRef st = Some c ->
    wellLaidOut c ->
    (scrollHeight c <= scrollHeight c')%Z ->
    (clientHeight c' <= clientHeight c)%Z ->
    option_map scrollTop
      (Observer.chatMessagesRef
         (Observer.run
            [Observer.LoadOldMessagesClick; Observer.Dom (Some c') anchor;
             Observer.AnimationFrame] st))
    = Some (scrollTop c + (scrollHeight c' - scrollHeight c))%Z.
Proof.
  intros st c c' anchor Hc [Hlo Hhi] Hgrow Hview.
  unfold Observer.run. simpl. unfold Observer.step at 1. simpl Observer.handle.
  autorewrite with commit_proj.
  unfold Observer.step at 2. simpl Observer.handle.
  unfold Observer.step. simpl Observer.handle.
  assert (Hload : Observer.commit st (Observer.handleLoadOldMessages st)
                  = Observer.handleLoadOldMessages st).
  { apply ObserverFacts.commit_no_deps; unfold Observer.handleLoadOldMessages; simpl;
      rewrite Hc; reflexivity. }
  rewrite Hload.
  rewrite ObserverFacts.commit_no_deps by reflexivity.
  unfold Observer.animationFrame, Observer.handleLoadOldMessages. simpl. rewrite Hc. simpl.
  rewrite fold_left_app. simpl.
  match goal with
  | |- context [fold_left Observer.runFrame (Observer.frames st) ?s] =>
      destruct (ObserverFacts.runFrames_extent (Observer.frames st) s eq_refl)
        as (c'' & Hc'' & Hh & Hk)
  end.
  rewrite Hc''. simpl. rewrite Hh. unfold maxScrollTop. rewrite Hh, Hk.
  f_equal. lia.
Qed.

(** P5 of the specification: scroll height 2000, offset 500, and an insertion
    that grows the scroll height to 2800 give offset 1300. *)
Lemma prepend_keeps_position_witness :
  option_map scrollTop
    (Observer.chatMessagesRef
       (Observer.run
          [Observer.LoadOldMessagesClick;
           Observer.Dom (Some (mkContainer 500 2800 600)) true;
           Observer.AnimationFrame]
          (Observer.mount false 3 sampleContainer)))
  = Some 1300%Z.
Proof.
  apply (prepend_keeps_position (Observer.mount false 3 sampleContainer)
           (c := sampleContainer) (mkContainer 500 2800 600) true).
  - reflexivity.
  - unfold wellLaidOut. simpl. lia.
  - simpl. lia.
  - simpl. lia.
Defined.

(** ** Releasing [isLoadingOldMessages] *)

Lemma fired_among (f : timer Observer.timerCallback -> bool) t q now :
  In t q -> (due t <= now)%N -> f t = true -> existsb f (expired now q) = true.
Proof.
  intros Hin Hdue Hf. apply existsb_exists. exists t. split; [|exact Hf].
  apply in_expired. auto.
Qed.

(** With the container mounted, the click's animation frame starts the 500 ms
    timer and the timer clears [isLoadingOldMessages]. *)
Lemma load_older_released :
  forall (st : Observer.state) (c : container) (ms : N),
    Observer.chatMessagesRef st = Some c ->
    (500 <= ms)%N ->
    Observer.isLoadingOldMessages
      (Observer.run
         [Observer.LoadOldMessagesClick; Observer.AnimationFrame; Observer.Elapse ms] st)
    = false.
Proof.
  intros st c ms Hc Hms.
  unfold Observer.run. simpl.
  set (st1 := Observer.step st Observer.LoadOldMessagesClick).
  assert (Hst1 : Observer.frames st1 =
                 Observer.frames st ++ [Observer.Compensate (scrollHeight c) (scrollTop c)]).
  { subst st1. unfold Observer.step. simpl Observer.handle.
    rewrite ObserverFacts.commit_no_deps;
      unfold Observer.handleLoadOldMessages; simpl; rewrite Hc; reflexivity. }
  destruct (ObserverFacts.animationFrame_starts_release st1 _ _ _ Hst1)
    as (Hk & t & Hin & Hdue & Hrel).
  set (st2 := Observer.step st1 Observer.AnimationFrame).
  assert (Hin2 : In t (Observer.timers st2))
    by (subst st2; unfold Observer.step; simpl Observer.handle;
        now autorewrite with commit_proj).
  assert (Hk2 : Observer.clock st2 = Observer.clock st1)
    by (subst st2; unfold Observer.step; simpl Observer.handle;
        now autorewrite with commit_proj).
  unfold Observer.step. simpl Observer.handle. autorewrite with commit_proj.
  unfold Observer.elapse.
  match goal with
  | |- context [fold_left Observer.fireTimer ?l ?s] =>
      destruct (ObserverFacts.fireTimers_fields l s) as (_ & -> & _)
  end.
  rewrite (@fired_among Observer.releasesLoading t (Observer.timers st2)
             (Observer.clock st2 + ms)%N Hin2); auto.
  rewrite Hdue, Hk2. lia.
Qed.

Lemma noReleasePending_commit old new :
  Observer.noReleasePending new -> Observer.noReleasePending (Observer.commit old new).
Proof.
  unfold Observer.noReleasePending. intros [Ht Hf].
  destruct (ObserverFacts.commit_cases old new) as [->| ->]; [auto|].
  simpl. rewrite existsb_app, Hf. auto.
Qed.

(** While nothing pending would release it, frames and timers leave
    [isLoadingOldMessages] as it is. *)
Lemma frames_and_waits_keep_loading waits : forall st,
  Observer.noReleasePending st ->
  Observer.isLoadingOldMessages (Observer.run (Observer.framesAndWaits waits) st)
  = Observer.isLoadingOldMessages st.
Proof.
  induction waits as [|ms waits IH]; intros st Hnone; [reflexivity|].
  change (Observer.framesAndWaits (ms :: waits))
    with ([Observer.AnimationFrame; Observer.Elapse ms] ++ Observer.framesAndWaits waits).
  unfold Observer.run. rewrite fold_left_app. fold (Observer.run (Observer.framesAndWaits waits)).
  destruct Hnone as [Ht Hf].
  (* the animation frame *)
  assert (Hframe : Observer.noReleasePending (Observer.step st Observer.AnimationFrame) /\
                   Observer.isLoadingOldMessages (Observer.step st Observer.AnimationFrame)
                   = Observer.isLoadingOldMessages st).
  { unfold Observer.step. simpl Observer.handle. autorewrite with commit_proj.
    unfold Observer.animationFrame.
    match goal with
    | |- context [fold_left Observer.runFrame ?l ?s] =>
        destruct (ObserverFacts.runFrames_no_release l s Hf) as (El & _ & Efr & Etm)
    end.
    split; [|exact El].
    apply noReleasePending_commit. split; [rewrite Etm; exact Ht|rewrite Efr; reflexivity]. }
  destruct Hframe as [[Ht1 Hf1] El1].
  set (st1 := Observer.step st Observer.AnimationFrame) in *.
  (* the wait *)
  assert (Hwait : Observer.noReleasePending (Observer.step st1 (Observer.Elapse ms)) /\
                  Observer.isLoadingOldMessages (Observer.step st1 (Observer.Elapse ms))
                  = Observer.isLoadingOldMessages st1).
  { unfold Observer.step. simpl Observer.handle. autorewrite with commit_proj.
    unfold Observer.elapse.
    match goal with
    | |- context [fold_left Observer.fireTimer ?l ?s] =>
        destruct (ObserverFacts.fireTimers_fields l s)
          as (_ & El & _ & _ & _ & _ & Etm & Efr & _)
    end.
    assert (Hexp : existsb Observer.releasesLoading
                     (expired (Observer.clock st1 + ms) (Observer.timers st1)) = false)
      by (now apply ObserverFacts.existsb_filter_false).
    split.
    - apply noReleasePending_commit. split.
      + rewrite Etm. simpl. now apply ObserverFacts.existsb_filter_false.
      + rewrite Efr. exact Hf1.
    - rewrite El, Hexp. reflexivity. }
  destruct Hwait as [Hnone2 El2].
  simpl fold_left at 2.
  fold st1. rewrite IH by exact Hnone2. congruence.
Qed.

(** The guarded path of [handleLoadOldMessages]: with the container not
    mounted the click sets [isLoadingOldMessages] and returns before it
    requests the frame that would start the timer, so however many frames and
    however much time pass, [isLoadingOldMessages] stays set and the button
    stays hidden. *)
Lemma load_older_without_container_stays_loading :
  forall (st : Observer.state) (waits : list N),
    Observer.chatMessagesRef st = None ->
    Observer.noReleasePending st ->
    let st' := Observer.run
                 (Observer.LoadOldMessagesClick :: Observer.framesAndWaits waits) st in
    Observer.isLoadingOldMessages st' = true /\ Observer.showScrollButton st' = false.
Proof.
  intros st waits Hc Hnone st'.
  assert (Hl : Observer.isLoadingOldMessages st' = true).
  { subst st'. unfold Observer.run. simpl.
    fold (Observer.run (Observer.framesAndWaits waits)).
    assert (Hclick : Observer.step st Observer.LoadOldMessagesClick
                     = Observer.setIsLoadingOldMessages true st).
    { unfold Observer.step. simpl Observer.handle.
      unfold Observer.handleLoadOldMessages. simpl. rewrite Hc.
      now apply ObserverFacts.commit_no_deps. }
    rewrite Hclick. rewrite frames_and_waits_keep_loading; [reflexivity|].
    exact Hnone. }
  split; [exact Hl|].
  unfold Observer.showScrollButton. rewrite Hl. simpl. now rewrite andb_false_r.
Qed.

(** ** The programmatic-scroll guard of [scrollToBottom] *)

(** C9, as stated, fails when the anchor is not mounted: the call returns
    without setting [isScrollingProgrammaticallyRef] and without scrolling. *)
Lemma scrollToBottom_without_anchor_sets_nothing :
  let st := Observer.run [Observer.Dom (Some sampleContainer) false]
              (Observer.mount false 3 sampleContainer) in
  Observer.isScrollingProgrammaticallyRef
    (Observer.step st (Observer.CallScrollToBottom true)) = false /\
  Observer.scrollLog (Observer.step st (Observer.CallScrollToBottom true)) = [].
Proof.
  split; reflexivity.
Qed.

(** C9, amended: a call of [scrollToBottom] with the anchor mounted sets
    [isScrollingProgrammaticallyRef], then scrolls, then starts a timer of
    500 ms when smooth and 0 ms when not; once that time has passed the timer
    has cleared the ref.  A call with the anchor not mounted changes nothing. *)
Theorem scrollToBottom_guard :
  forall (st : Observer.state) (smooth : bool),
    (Observer.messagesEndRef st = false -> Observer.scrollToBottom smooth st = st) /\
    (Observer.messagesEndRef st = true ->
     let delay := (if smooth then 500 else 0)%N in
     let st' := Observer.scrollToBottom smooth st in
     st' = Observer.setTimeout Observer.ResetProgrammatic delay
             (Observer.logScroll smooth (Observer.setProgrammatic true st)) /\
     Observer.isScrollingProgrammaticallyRef st' = true /\
     Observer.scrollLog st' = Observer.scrollLog st ++ [smooth] /\
     In (mkTimer (Observer.nextTimerId st) (Observer.clock st + delay)%N
           Observer.ResetProgrammatic) (Observer.timers st') /\
     (forall ms : N, (delay <= ms)%N ->
        Observer.isScrollingProgrammaticallyRef (Observer.step st' (Observer.Elapse ms))
        = false)).
Proof.
  intros st smooth. split; intros Hm.
  - unfold Observer.scrollToBottom. now rewrite Hm.
  - intros delay st'.
    assert (Hst' : st' = Observer.setTimeout Observer.ResetProgrammatic delay
                           (Observer.logScroll smooth (Observer.setProgrammatic true st))).
    { subst st' delay. unfold Observer.scrollToBottom. now rewrite Hm. }
    assert (Hin : In (mkTimer (Observer.nextTimerId st) (Observer.clock st + delay)%N
                        Observer.ResetProgrammatic) (Observer.timers st')).
    { rewrite Hst'. simpl. apply in_enqueue. now left. }
    split; [exact Hst'|]. split; [now rewrite Hst'|]. split; [now rewrite Hst'|].
    split; [exact Hin|].
    intros ms Hms. unfold Observer.step. simpl Observer.handle.
    autorewrite with commit_proj. unfold Observer.elapse.
    match goal with
    | |- context [fold_left Observer.fireTimer ?l ?s] =>
        destruct (ObserverFacts.fireTimers_fields l s) as (-> & _)
    end.
    rewrite (@fired_among Observer.resetsProgrammatic _ _ _ Hin); auto.
    simpl. rewrite Hst'. simpl. lia.
Qed.

(** The host scrolls to the bottom after a message is sent: the guard is up
    during the smooth scroll and down half a second later. *)
Lemma scrollToBottom_guard_witness :
  let st := Observer.mount false 3 sampleContainer in
  Observer.isScrollingProgrammaticallyRef (Observer.scrollToBottom true st) = true /\
  Observer.isScrollingProgrammaticallyRef
    (Observer.step (Observer.scrollToBottom true st) (Observer.Elapse 500)) = false.
Proof.
  intros st.
  destruct (scrollToBottom_guard st true) as [_ Hmounted].
  destruct (Hmounted eq_refl) as (_ & Hset & _ & _ & Hclear).
  split; [exact Hset|]. apply Hclear. lia.
Defined.

(** ** The 150 ms release of [isUserScrolling] *)

(** C10: in the hook of [useAutoScroll.ts], a scroll event that finds the
    offsets at the bottom sets [shouldAutoScroll] at once and leaves
    [isUserScrolling] to a 150 ms timer, which the next scroll event cancels
    and replaces.  So through a burst of scroll events less than 150 ms apart,
    [isUserScrolling], once true, stays true although the view is at the
    bottom, and the single pending timer is the one of the last event; it
    clears [isUserScrolling] once 150 ms pass without a scroll event. *)
Theorem scroll_burst_keeps_user_scrolling :
  forall (streaming : bool) (len : nat) (c0 : container)
         (evs : list Offset.event) (c : container) (gaps : list N),
    let st := Offset.run evs (Offset.mount streaming len c0) in
    Offset.isUserScrolling st = true ->
    Offset.chatMessagesRef st = Some c ->
    Offset.offsetsAtBottom c = true ->
    Forall (fun gap => (gap < 150)%N) gaps ->
    let st' := Offset.run (Offset.scrollBurst gaps) st in
    Offset.isAtBottom st' = true /\
    Offset.shouldAutoScroll st' = true /\
    Offset.isUserScrolling st' = true /\
    (exists id, Offset.timers st' =
                [mkTimer id (Offset.clock st' + 150)%N (Offset.MarkNotScrolling true)]) /\
    (forall ms : N, (150 <= ms)%N ->
       Offset.isUserScrolling (Offset.step st' (Offset.Elapse ms)) = false).
Proof.
  intros streaming len c0 evs c gaps st Hu Hc Hb Hgaps st'.
  assert (Htr : Offset.timersTracked st).
  { subst st. apply OffsetFacts.timersTracked_run, OffsetFacts.timersTracked_mount. }
  assert (Hinv : Offset.awaitingRelease c st').
  { subst st'. unfold Offset.scrollBurst, Offset.run. simpl.
    apply OffsetFacts.burst_keeps_release; auto.
    now apply OffsetFacts.scroll_starts_release. }
  pose proof (fun ms => @OffsetFacts.release_fires c st' ms Hinv) as Hfires.
  destruct Hinv as (Ha & Hs & Hu' & _ & id & _ & Ht).
  repeat split; auto. now exists id.
Qed.

(** The user scrolled up, then drags back to the bottom with scroll events
    100 ms and 149 ms apart: [isUserScrolling] is still true at the bottom. *)
Lemma scroll_burst_keeps_user_scrolling_witness :
  let st := Offset.run
              [Offset.ScrollEvent; Offset.Dom (Some (mkContainer 1400 2000 600)) true]
              (Offset.mount false 3 sampleContainer) in
  Offset.isUserScrolling st = true /\
  Offset.isUserScrolling (Offset.run (Offset.scrollBurst [100%N; 149%N]) st) = true.
Proof.
  intros st. split; [reflexivity|].
  refine (proj1 (proj2 (proj2
    (@scroll_burst_keeps_user_scrolling false 3 sampleContainer
       [Offset.ScrollEvent; Offset.Dom (Some (mkContainer 1400 2000 600)) true]
       (mkContainer 1400 2000 600) [100%N; 149%N] _ _ _ _)))).
  - reflexivity.
  - reflexivity.
  - reflexivity.
  - repeat constructor.
Defined.

(** * Further properties of the code *)

(** ** Which handler writes which flag *)

Lemma observer_scrollToBottom_flags smooth st :
  Observer.flags (Observer.scrollToBottom smooth st) = Observer.flags st /\
  Observer.messagesEndRef (Observer.scrollToBottom smooth st) = Observer.messagesEndRef st.
Proof.
  unfold Observer.scrollToBottom. destruct (Observer.messagesEndRef st) eqn:Hm; simpl; auto.
Qed.

Lemma observer_runFrame_flags st cb :
  Observer.flags (Observer.runFrame st cb) = Observer.flags st /\
  Observer.messagesEndRef (Observer.runFrame st cb) = Observer.messagesEndRef st.
Proof.
  destruct cb as [smooth|hb tb]; simpl.
  - apply observer_scrollToBottom_flags.
  - destruct (Observer.chatMessagesRef st); auto.
Qed.

Lemma observer_runFrames_flags l : forall st,
  Observer.flags (fold_left Observer.runFrame l st) = Observer.flags st /\
  Observer.messagesEndRef (fold_left Observer.runFrame l st) = Observer.messagesEndRef st.
Proof.
  induction l as [|cb l IH]; intros st; simpl; [auto|].
  destruct (IH (Observer.runFrame st cb)) as [-> ->].
  apply observer_runFrame_flags.
Qed.

Lemma observer_flags_inv st st' :
  Observer.flags st' = Observer.flags st ->
  Observer.isAtBottom st' = Observer.isAtBottom st /\
  Observer.shouldAutoScroll st' = Observer.shouldAutoScroll st /\
  Observer.isUserScrolling st' = Observer.isUserScrolling st /\
  Observer.isLoadingOldMessages st' = Observer.isLoadingOldMessages st.
Proof.
  unfold Observer.flags. intros H. injection H. auto.
Qed.

Lemma observer_animationFrame_flags st :
  Observer.flags (Observer.animationFrame st) = Observer.flags st /\
  Observer.messagesEndRef (Observer.animationFrame st) = Observer.messagesEndRef st.
Proof.
  unfold Observer.animationFrame.
  match goal with
  | |- context [fold_left Observer.runFrame ?l ?s] =>
      destruct (observer_runFrames_flags l s) as [-> ->]
  end.
  auto.
Qed.

Lemma observer_commit_flags old new :
  Observer.flags (Observer.commit old new) = Observer.flags new.
Proof.
  unfold Observer.flags. now autorewrite with commit_proj.
Qed.

Lemma observer_elapse_follow ms st :
  Observer.isAtBottom (Observer.elapse ms st) = Observer.isAtBottom st /\
  Observer.shouldAutoScroll (Observer.elapse ms st) = Observer.shouldAutoScroll st /\
  Observer.isUserScrolling (Observer.elapse ms st) = Observer.isUserScrolling st.
Proof.
  unfold Observer.elapse.
  match goal with
  | |- context [fold_left Observer.fireTimer ?l ?s] =>
      destruct (ObserverFacts.fireTimers_fields l s) as (_ & _ & -> & -> & -> & _)
  end.
  auto.
Qed.

Lemma observer_handleScroll_keeps st :
  Observer.isAtBottom (Observer.handleScroll st) = Observer.isAtBottom st /\
  Observer.isLoadingOldMessages (Observer.handleScroll st) = Observer.isLoadingOldMessages st.
Proof.
  unfold Observer.handleScroll.
  destruct (Observer.isScrollingProgrammaticallyRef st); [auto|].
  destruct (negb (Observer.isAtBottom st) && negb (Observer.isStreaming st)); auto.
Qed.

Lemma observer_handleLoadOldMessages_follow st :
  Observer.isAtBottom (Observer.handleLoadOldMessages st) = Observer.isAtBottom st /\
  Observer.shouldAutoScroll (Observer.handleLoadOldMessages st) = Observer.shouldAutoScroll st /\
  Observer.isUserScrolling (Observer.handleLoadOldMessages st) = Observer.isUserScrolling st.
Proof.
  unfold Observer.handleLoadOldMessages. simpl.
  destruct (Observer.chatMessagesRef st); auto.
Qed.

Lemma observerCallback_loading entries : forall was st,
  Observer.isLoadingOldMessages (fold_left (Observer.observeEntry was) entries st)
  = Observer.isLoadingOldMessages st.
Proof.
  induction entries as [|e es IH]; intros was st; simpl; [reflexivity|].
  rewrite IH. unfold Observer.observeEntry. simpl.
  destruct (negb was && e && negb (Observer.isScrollingProgrammaticallyRef st)); reflexivity.
Qed.

(** X1: in the observer hook each flag has its own writers.  [isAtBottom]
    changes only when the observer reports; [shouldAutoScroll] and
    [isUserScrolling] only on an observer report, a scroll event or a click on
    the button; [isLoadingOldMessages] only on a click on "Load Old
    Messages", a call of the exposed setter or a timer firing. *)
Theorem observer_flag_writers :
  forall (st : Observer.state) (ev : Observer.event),
    let st' := Observer.step st ev in
    (isIntersection ev = false -> Observer.isAtBottom st' = Observer.isAtBottom st) /\
    (writesFollow ev = false ->
     Observer.shouldAutoScroll st' = Observer.shouldAutoScroll st /\
     Observer.isUserScrolling st' = Observer.isUserScrolling st) /\
    (writesLoading ev = false ->
     Observer.isLoadingOldMessages st' = Observer.isLoadingOldMessages st).
Proof.
  intros st ev st'. subst st'. unfold Observer.step.
  autorewrite with commit_proj.
  destruct ev as [entries| | |smooth| |b|streaming len|c anchor| |ms]; simpl;
    (split; [|split]); intros Hev; try discriminate; auto.
  - unfold Observer.observerCallback. apply observerCallback_loading.
  - apply observer_handleScroll_keeps.
  - apply observer_handleScroll_keeps.
  - unfold Observer.handleScrollToBottom.
    now destruct (observer_flags_inv (proj1 (observer_scrollToBottom_flags true
      (Observer.setIsUserScrolling false (Observer.setShouldAutoScroll true st)))))
      as (-> & _).
  - unfold Observer.handleScrollToBottom.
    now destruct (observer_flags_inv (proj1 (observer_scrollToBottom_flags true
      (Observer.setIsUserScrolling false (Observer.setShouldAutoScroll true st)))))
      as (_ & _ & _ & ->).
  - now destruct (observer_flags_inv (proj1 (observer_scrollToBottom_flags smooth st)))
      as (-> & _).
  - now destruct (observer_flags_inv (proj1 (observer_scrollToBottom_flags smooth st)))
      as (_ & -> & -> & _).
  - now destruct (observer_flags_inv (proj1 (observer_scrollToBottom_flags smooth st)))
      as (_ & _ & _ & ->).
  - apply observer_handleLoadOldMessages_follow.
  - destruct (observer_handleLoadOldMessages_follow st) as (_ & -> & ->). auto.
  - now destruct (observer_flags_inv (proj1 (observer_animationFrame_flags st)))
      as (-> & _).
  - now destruct (observer_flags_inv (proj1 (observer_animationFrame_flags st)))
      as (_ & -> & -> & _).
  - now destruct (observer_flags_inv (proj1 (observer_animationFrame_flags st)))
      as (_ & _ & _ & ->).
  - apply observer_elapse_follow.
  - destruct (observer_elapse_follow ms st) as (_ & -> & ->). auto.
Qed.

(** A timer that fires writes none of the follow flags. *)
Lemma observer_flag_writers_witness :
  let st := Observer.run [Observer.JumpToBottomClick]
              (Observer.mount false 3 sampleContainer) in
  Observer.isAtBottom (Observer.step st (Observer.Elapse 500)) = Observer.isAtBottom st /\
  Observer.isUserScrolling (Observer.step st (Observer.Elapse 500))
  = Observer.isUserScrolling st.
Proof.
  intros st.
  destruct (observer_flag_writers st (Observer.Elapse 500)) as (Ha & Hf & _).
  split; [exact (Ha eq_refl)|]. exact (proj2 (Hf eq_refl)).
Defined.

(** ** Animation frames *)

Lemma observer_scrollToBottom_log smooth st :
  Observer.scrollLog (Observer.scrollToBottom smooth st) =
    Observer.scrollLog st ++ (if Observer.messagesEndRef st then [smooth] else []) /\
  Observer.frames (Observer.scrollToBottom smooth st) = Observer.frames st /\
  Observer.isStreaming (Observer.scrollToBottom smooth st) = Observer.isStreaming st /\
  Observer.messagesLength (Observer.scrollToBottom smooth st) = Observer.messagesLength st.
Proof.
  unfold Observer.scrollToBottom. destruct (Observer.messagesEndRef st); simpl;
    rewrite ?app_nil_r; auto.
Qed.

Lemma observer_runFrames_log l : forall st,
  Observer.scrollLog (fold_left Observer.runFrame l st) =
    Observer.scrollLog st ++ (if Observer.messagesEndRef st then requestedScrolls l else []) /\
  Observer.frames (fold_left Observer.runFrame l st) = Observer.frames st /\
  Observer.isStreaming (fold_left Observer.runFrame l st) = Observer.isStreaming st /\
  Observer.messagesLength (fold_left Observer.runFrame l st) = Observer.messagesLength st.
Proof.
  induction l as [|cb l IH]; intros st; simpl.
  - destruct (Observer.messagesEndRef st); rewrite app_nil_r; auto.
  - destruct (IH (Observer.runFrame st cb)) as (-> & -> & -> & ->).
    destruct (observer_runFrame_flags st cb) as [_ ->].
    destruct cb as [smooth|hb tb]; simpl.
    + destruct (observer_scrollToBottom_log smooth st) as (-> & -> & -> & ->).
      rewrite <- app_assoc. destruct (Observer.messagesEndRef st); auto.
    + destruct (Observer.chatMessagesRef st); simpl; auto.
Qed.

Lemma observer_animationFrame_step st :
  Observer.step st Observer.AnimationFrame = Observer.animationFrame st.
Proof.
  unfold Observer.step. simpl.
  destruct (observer_flags_inv (proj1 (observer_animationFrame_flags st)))
    as (Ha & Hs & _).
  unfold Observer.animationFrame in *.
  match goal with
  | |- context [fold_left Observer.runFrame ?l ?s] =>
      destruct (observer_runFrames_log l s) as (_ & _ & Hstr & Hlen)
  end.
  apply ObserverFacts.commit_no_deps; simpl in *; congruence.
Qed.

Lemma observer_animationFrame_log st :
  Observer.frames (Observer.step st Observer.AnimationFrame) = [] /\
  Observer.scrollLog (Observer.step st Observer.AnimationFrame) =
    Observer.scrollLog st ++
      (if Observer.messagesEndRef st then requestedScrolls (Observer.frames st) else []).
Proof.
  rewrite observer_animationFrame_step.
  unfold Observer.animationFrame.
  match goal with
  | |- context [fold_left Observer.runFrame ?l ?s] =>
      destruct (observer_runFrames_log l s) as (-> & -> & _)
  end.
  simpl. auto.
Qed.

(** X2: an animation frame empties the queue of frame callbacks and runs
    every scroll requested since the last frame, in the order of the requests;
    with the anchor not mounted none of them scrolls. *)
Theorem animation_frame_runs_every_request :
  forall st : Observer.state,
    let st' := Observer.step st Observer.AnimationFrame in
    Observer.frames st' = [] /\
    Observer.scrollLog st' =
      Observer.scrollLog st ++
        (if Observer.messagesEndRef st then requestedScrolls (Observer.frames st) else []).
Proof.
  intros st. apply observer_animationFrame_log.
Qed.

Lemma observer_render_at_bottom st len :
  Observer.shouldAutoScroll st = true ->
  Observer.isAtBottom st = true ->
  Observer.messagesLength st < len ->
  Observer.step st (Observer.Render (Observer.isStreaming st) len) =
  Observer.requestAnimationFrame (Observer.AutoScroll (negb (Observer.isStreaming st)))
    (Observer.setProps (Observer.isStreaming st) len st).
Proof.
  intros Hs Ha Hlen. unfold Observer.step, Observer.commit. simpl.
  assert (Hdeps : Observer.depsChanged st
                    (Observer.setProps (Observer.isStreaming st) len st) = true).
  { unfold Observer.depsChanged. simpl.
    apply Nat.lt_neq, Nat.eqb_neq in Hlen. now rewrite Hlen. }
  rewrite Hdeps. unfold Observer.autoScrollEffect. simpl. now rewrite Hs, Ha.
Qed.

Lemma requestedScrolls_app l1 l2 :
  requestedScrolls (l1 ++ l2) = requestedScrolls l1 ++ requestedScrolls l2.
Proof. unfold requestedScrolls. apply flat_map_app. Qed.

Lemma requestedScrolls_repeat smooth n :
  requestedScrolls (repeat (Observer.AutoScroll smooth) n) = repeat smooth n.
Proof.
  induction n as [|n IH]; simpl; [reflexivity|]. now rewrite <- IH.
Qed.

Lemma observer_renders_queue lens : forall st,
  Observer.shouldAutoScroll st = true ->
  Observer.isAtBottom st = true ->
  growingFrom (Observer.messagesLength st) lens = true ->
  let st' := Observer.run (map (Observer.Render (Observer.isStreaming st)) lens) st in
  Observer.frames st' =
    Observer.frames st ++
      repeat (Observer.AutoScroll (negb (Observer.isStreaming st))) (length lens) /\
  Observer.scrollLog st' = Observer.scrollLog st /\
  Observer.messagesEndRef st' = Observer.messagesEndRef st.
Proof.
  induction lens as [|len lens IH]; intros st Hs Ha Hgrow; simpl.
  - rewrite app_nil_r. auto.
  - simpl in Hgrow. apply andb_true_iff in Hgrow. destruct Hgrow as [Hlt Hgrow].
    apply Nat.ltb_lt in Hlt.
    unfold Observer.run in *. simpl.
    rewrite (observer_render_at_bottom st Hs Ha Hlt).
    set (st1 := Observer.requestAnimationFrame _ _).
    specialize (IH st1 Hs Ha Hgrow). simpl in IH.
    destruct IH as (-> & -> & ->). simpl.
    rewrite <- app_assoc. simpl. repeat split.
Qed.

(** X3: requested scrolls are not merged.  With the view at the bottom and
    auto-scroll on, renders that each bring more messages (the streaming flag
    unchanged) queue one scroll each, and the next animation frame performs
    all of them. *)
Theorem content_changes_queue_one_scroll_each :
  forall (st : Observer.state) (lens : list nat),
    Observer.shouldAutoScroll st = true ->
    Observer.isAtBottom st = true ->
    growingFrom (Observer.messagesLength st) lens = true ->
    let smooth := negb (Observer.isStreaming st) in
    let st' := Observer.run (map (Observer.Render (Observer.isStreaming st)) lens) st in
    Observer.frames st' =
      Observer.frames st ++ repeat (Observer.AutoScroll smooth) (length lens) /\
    Observer.scrollLog (Observer.step st' Observer.AnimationFrame) =
      Observer.scrollLog st ++
        (if Observer.messagesEndRef st
         then requestedScrolls (Observer.frames st) ++ repeat smooth (length lens)
         else []).
Proof.
  intros st lens Hs Ha Hgrow smooth st'.
  destruct (observer_renders_queue lens st Hs Ha Hgrow) as (Hf & Hl & Hm).
  fold st' in Hf, Hl, Hm. split; [exact Hf|].
  destruct (observer_animationFrame_log st') as [_ Hlog]. rewrite Hlog, Hf, Hl, Hm.
  now rewrite requestedScrolls_app, requestedScrolls_repeat.
Qed.

(** Scenario A of the specification: five messages arrive after mount with
    nothing streaming; the next frame makes six smooth scrolls, the one of
    the mount and one for each message. *)
Lemma content_changes_queue_one_scroll_each_witness :
  Observer.scrollLog
    (Observer.step
       (Observer.run (map (Observer.Render false) [4; 5; 6; 7; 8])
          (Observer.mount false 3 sampleContainer))
       Observer.AnimationFrame)
  = repeat true 6.
Proof.
  destruct (@content_changes_queue_one_scroll_each
              (Observer.mount false 3 sampleContainer) [4; 5; 6; 7; 8]
              eq_refl eq_refl eq_refl) as [_ Hlog].
  exact Hlog.
Defined.

(** ** How long the programmatic-scroll guard stays up *)

Lemma existsb_false_in (A : Type) (f : A -> bool) l x :
  existsb f l = false -> In x l -> f x = false.
Proof.
  intros Hf Hin. destruct (f x) eqn:Hx; [|reflexivity].
  assert (existsb f l = true) by (apply existsb_exists; eauto). congruence.
Qed.

Lemma observer_elapse_fields ms st :
  Observer.isScrollingProgrammaticallyRef (Observer.step st (Observer.Elapse ms)) =
    (if existsb Observer.resetsProgrammatic
          (expired (Observer.clock st + ms) (Observer.timers st))
     then false else Observer.isScrollingProgrammaticallyRef st) /\
  Observer.isLoadingOldMessages (Observer.step st (Observer.Elapse ms)) =
    (if existsb Observer.releasesLoading
          (expired (Observer.clock st + ms) (Observer.timers st))
     then false else Observer.isLoadingOldMessages st) /\
  Observer.timers (Observer.step st (Observer.Elapse ms)) =
    waiting (Observer.clock st + ms) (Observer.timers st) /\
  Observer.clock (Observer.step st (Observer.Elapse ms)) = (Observer.clock st + ms)%N.
Proof.
  unfold Observer.step. simpl Observer.handle. autorewrite with commit_proj.
  unfold Observer.elapse.
  match goal with
  | |- context [fold_left Observer.fireTimer ?l ?s] =>
      destruct (ObserverFacts.fireTimers_fields l s)
        as (-> & -> & _ & _ & _ & _ & -> & _ & ->)
  end.
  simpl. auto.
Qed.

Lemma observer_fireTimers_messagesEndRef l : forall st,
  Observer.messagesEndRef (fold_left Observer.fireTimer l st) = Observer.messagesEndRef st.
Proof.
  induction l as [|t l IH]; intros st; simpl; [reflexivity|].
  rewrite IH. unfold Observer.fireTimer. destruct (action t); reflexivity.
Qed.

Lemma observer_elapse_messagesEndRef ms st :
  Observer.messagesEndRef (Observer.step st (Observer.Elapse ms)) = Observer.messagesEndRef st.
Proof.
  unfold Observer.step. simpl Observer.handle.
  destruct (ObserverFacts.commit_cases st (Observer.elapse ms st)) as [->| ->]; simpl;
    unfold Observer.elapse; now rewrite observer_fireTimers_messagesEndRef.
Qed.

(** The guard stays up while no timer that resets it comes due. *)
Lemma observer_guard_survives st ms :
  Observer.isScrollingProgrammaticallyRef st = true ->
  (forall t, In t (Observer.timers st) -> Observer.resetsProgrammatic t = true ->
             (Observer.clock st + ms < due t)%N) ->
  Observer.isScrollingProgrammaticallyRef (Observer.step st (Observer.Elapse ms)) = true.
Proof.
  intros Hflag Hlate.
  destruct (observer_elapse_fields ms st) as (-> & _).
  destruct (existsb _ _) eqn:Hex; [|exact Hflag].
  apply existsb_exists in Hex. destruct Hex as (t & Hin & Hres).
  apply in_expired in Hin. destruct Hin as [Hin Hdue].
  specialize (Hlate t Hin Hres). lia.
Qed.

Lemma observer_scrollToBottom_timers st :
  Observer.messagesEndRef st = true ->
  let st' := Observer.scrollToBottom true st in
  Observer.isScrollingProgrammaticallyRef st' = true /\
  Observer.clock st' = Observer.clock st /\
  Observer.timers st' =
    enqueue (mkTimer (Observer.nextTimerId st) (Observer.clock st + 500)%N
               Observer.ResetProgrammatic) (Observer.timers st).
Proof.
  intros Hm. unfold Observer.scrollToBottom. rewrite Hm. simpl. auto.
Qed.

Lemma observer_fresh_guard st ms :
  Observer.messagesEndRef st = true ->
  existsb Observer.resetsProgrammatic (Observer.timers st) = false ->
  (ms < 500)%N ->
  forall t, In t (Observer.timers (Observer.scrollToBottom true st)) ->
            Observer.resetsProgrammatic t = true ->
            (Observer.clock (Observer.scrollToBottom true st) + ms < due t)%N.
Proof.
  intros Hm Hnone Hms t Hin Hres.
  destruct (observer_scrollToBottom_timers st Hm) as (_ & Hk & Ht).
  rewrite Hk. rewrite Ht in Hin. apply in_enqueue in Hin. destruct Hin as [->|Hin].
  - simpl. lia.
  - rewrite (existsb_false_in _ _ _ Hnone Hin) in Hres. discriminate.
Qed.

(** X4: the guard of a smooth scroll is not released early.  With the anchor
    mounted and no earlier reset timer pending, [scrollToBottom(true)] leaves
    [isScrollingProgrammaticallyRef] set for every wait shorter than 500 ms. *)
Theorem smooth_scroll_guard_lasts :
  forall (st : Observer.state) (ms : N),
    Observer.messagesEndRef st = true ->
    existsb Observer.resetsProgrammatic (Observer.timers st) = false ->
    (ms < 500)%N ->
    Observer.isScrollingProgrammaticallyRef
      (Observer.step (Observer.scrollToBottom true st) (Observer.Elapse ms)) = true.
Proof.
  intros st ms Hm Hnone Hms.
  apply observer_guard_survives.
  - now destruct (observer_scrollToBottom_timers st Hm) as (-> & _).
  - now apply observer_fresh_guard.
Qed.

Lemma smooth_scroll_guard_lasts_witness :
  Observer.isScrollingProgrammaticallyRef
    (Observer.step
       (Observer.scrollToBottom true (Observer.mount false 3 sampleContainer))
       (Observer.Elapse 499)) = true.
Proof.
  apply (@smooth_scroll_guard_lasts (Observer.mount false 3 sampleContainer) 499%N).
  - reflexivity.
  - reflexivity.
  - lia.
Defined.

(** X5: the guard is one boolean shared by all scrolls.  When a second smooth
    scroll starts [d] ms after a first one (0 < d < 500), the first scroll's
    timer clears the guard 500 ms after the first call, while the second
    scroll's own timer still has [d] ms to run. *)
Theorem overlapping_scrolls_release_guard_early :
  forall (st : Observer.state) (d : N),
    Observer.messagesEndRef st = true ->
    (0 < d < 500)%N ->
    let st' := Observer.run
                 [Observer.CallScrollToBottom true; Observer.Elapse d;
                  Observer.CallScrollToBottom true; Observer.Elapse (500 - d)] st in
    Observer.isScrollingProgrammaticallyRef st' = false /\
    exists t, In t (Observer.timers st') /\
              Observer.resetsProgrammatic t = true /\
              due t = (Observer.clock st' + d)%N.
Proof.
  intros st d Hm [Hd0 Hd] st'. subst st'. unfold Observer.run. cbn [fold_left].
  (* the first call *)
  set (s1 := Observer.step st (Observer.CallScrollToBottom true)).
  assert (Hs1 : s1 = Observer.scrollToBottom true st).
  { subst s1. unfold Observer.step. simpl.
    destruct (observer_flags_inv (proj1 (observer_scrollToBottom_flags true st)))
      as (Ha & Hs & _).
    destruct (observer_scrollToBottom_log true st) as (_ & _ & Hstr & Hlen).
    apply ObserverFacts.commit_no_deps; congruence. }
  destruct (observer_scrollToBottom_timers st Hm) as (_ & Hk1 & Ht1).
  rewrite <- Hs1 in Hk1, Ht1.
  set (t1 := mkTimer (Observer.nextTimerId st) (Observer.clock st + 500)%N
               Observer.ResetProgrammatic) in *.
  (* [d] ms later *)
  set (s2 := Observer.step s1 (Observer.Elapse d)).
  destruct (observer_elapse_fields d s1) as (_ & _ & Ht2 & Hk2). fold s2 in Ht2, Hk2.
  assert (Hm2 : Observer.messagesEndRef s2 = true).
  { subst s2. rewrite observer_elapse_messagesEndRef, Hs1.
    now destruct (observer_scrollToBottom_flags true st) as [_ ->]. }
  assert (Hin2 : In t1 (Observer.timers s2)).
  { rewrite Ht2. apply in_waiting. split.
    - rewrite Ht1. apply in_enqueue. now left.
    - subst t1. simpl. lia. }
  (* the second call *)
  set (s3 := Observer.step s2 (Observer.CallScrollToBottom true)).
  assert (Hs3 : s3 = Observer.scrollToBottom true s2).
  { subst s3. unfold Observer.step. simpl.
    destruct (observer_flags_inv (proj1 (observer_scrollToBottom_flags true s2)))
      as (Ha & Hs & _).
    destruct (observer_scrollToBottom_log true s2) as (_ & _ & Hstr & Hlen).
    apply ObserverFacts.commit_no_deps; congruence. }
  destruct (observer_scrollToBottom_timers s2 Hm2) as (_ & Hk3 & Ht3).
  rewrite <- Hs3 in Hk3, Ht3.
  set (t2 := mkTimer (Observer.nextTimerId s2) (Observer.clock s2 + 500)%N
               Observer.ResetProgrammatic) in *.
  (* 500 ms after the first call *)
  destruct (observer_elapse_fields (500 - d) s3) as (-> & _ & -> & ->).
  split.
  - rewrite (@fired_among Observer.resetsProgrammatic t1); auto.
    + rewrite Ht3. apply in_enqueue. now right.
    + subst t1. cbn [due]. rewrite Hk3, Hk2, Hk1. lia.
  - exists t2. split; [|split].
    + apply in_waiting. split.
      * rewrite Ht3. apply in_enqueue. now left.
      * subst t2. cbn [due]. rewrite Hk3. lia.
    + reflexivity.
    + subst t2. cbn [due]. rewrite Hk3. lia.
Qed.

Lemma overlapping_scrolls_release_guard_early_witness :
  Observer.isScrollingProgrammaticallyRef
    (Observer.run
       [Observer.CallScrollToBottom true; Observer.Elapse 300;
        Observer.CallScrollToBottom true; Observer.Elapse (500 - 300)]
       (Observer.mount false 3 sampleContainer)) = false.
Proof.
  refine (proj1 (@overlapping_scrolls_release_guard_early
                   (Observer.mount false 3 sampleContainer) 300%N _ _)).
  - reflexivity.
  - lia.
Defined.

(** ** What the guard hides *)

Lemma observer_step_intersection_in_flight st entries :
  Observer.isScrollingProgrammaticallyRef st = true ->
  let st' := Observer.step st (Observer.Intersection entries) in
  Observer.isAtBottom st' = last entries (Observer.isAtBottom st) /\
  Observer.shouldAutoScroll st' = Observer.shouldAutoScroll st /\
  Observer.isUserScrolling st' = Observer.isUserScrolling st /\
  Observer.isScrollingProgrammaticallyRef st' = true.
Proof.
  intros Hp st'. subst st'. unfold Observer.step. simpl Observer.handle.
  autorewrite with commit_proj. unfold Observer.observerCallback.
  destruct (ObserverFacts.observerCallback_in_flight entries (Observer.isAtBottom st) st Hp)
    as (Ha & Hs & Hu & _ & Hq).
  repeat split; assumption.
Qed.

Lemma observer_step_scroll_in_flight st :
  Observer.isScrollingProgrammaticallyRef st = true ->
  Observer.step st Observer.ScrollEvent = st.
Proof.
  intros Hp. unfold Observer.step. simpl.
  rewrite ObserverFacts.handleScroll_in_flight by exact Hp.
  apply ObserverFacts.commit_same.
Qed.

Lemma observer_step_elapse_follow st ms :
  Observer.isAtBottom (Observer.step st (Observer.Elapse ms)) = Observer.isAtBottom st /\
  Observer.shouldAutoScroll (Observer.step st (Observer.Elapse ms))
  = Observer.shouldAutoScroll st /\
  Observer.isUserScrolling (Observer.step st (Observer.Elapse ms))
  = Observer.isUserScrolling st.
Proof.
  unfold Observer.step. simpl Observer.handle. autorewrite with commit_proj.
  apply observer_elapse_follow.
Qed.

(** X6: a scroll away from the bottom in the half second after a click on the
    jump-to-bottom button goes unnoticed.  With the anchor mounted and no
    earlier reset timer pending, the observer's report still clears
    [isAtBottom], but the scroll event is ignored: [isUserScrolling] stays
    false, [shouldAutoScroll] stays true and the button stays hidden. *)
Theorem scroll_away_after_jump_is_ignored :
  forall (st : Observer.state) (ms : N),
    Observer.messagesEndRef st = true ->
    existsb Observer.resetsProgrammatic (Observer.timers st) = false ->
    (ms < 500)%N ->
    let st' := Observer.run
                 [Observer.JumpToBottomClick; Observer.Elapse ms;
                  Observer.Intersection [false]; Observer.ScrollEvent] st in
    Observer.isAtBottom st' = false /\
    Observer.isUserScrolling st' = false /\
    Observer.shouldAutoScroll st' = true /\
    Observer.showScrollButton st' = false.
Proof.
  intros st ms Hm Hnone Hms st'.
  assert (H : Observer.isAtBottom st' = false /\
              Observer.isUserScrolling st' = false /\
              Observer.shouldAutoScroll st' = true).
  { subst st'. unfold Observer.run. cbn [fold_left].
    set (s0 := Observer.setIsUserScrolling false (Observer.setShouldAutoScroll true st)).
    set (s1 := Observer.step st Observer.JumpToBottomClick).
    assert (Hm0 : Observer.messagesEndRef s0 = true) by exact Hm.
    assert (Hnone0 : existsb Observer.resetsProgrammatic (Observer.timers s0) = false)
      by exact Hnone.
    destruct (observer_scrollToBottom_timers s0 Hm0) as (Hflag & _).
    pose proof (observer_fresh_guard s0 Hm0 Hnone0 Hms) as Hlate.
    destruct (observer_flags_inv (proj1 (observer_scrollToBottom_flags true s0)))
      as (_ & Hs0 & Hu0 & _).
    assert (Hflag1 : Observer.isScrollingProgrammaticallyRef s1 = true)
      by (subst s1; unfold Observer.step; simpl Observer.handle;
          now autorewrite with commit_proj).
    assert (Hlate1 : forall t, In t (Observer.timers s1) ->
                Observer.resetsProgrammatic t = true ->
                (Observer.clock s1 + ms < due t)%N).
    { subst s1. unfold Observer.step. simpl Observer.handle.
      autorewrite with commit_proj. exact Hlate. }
    assert (Hs1 : Observer.shouldAutoScroll s1 = true /\ Observer.isUserScrolling s1 = false).
    { subst s1. unfold Observer.step. simpl Observer.handle.
      autorewrite with commit_proj. unfold Observer.handleScrollToBottom. fold s0.
      rewrite Hs0, Hu0. auto. }
    set (s2 := Observer.step s1 (Observer.Elapse ms)).
    pose proof (observer_guard_survives s1 ms Hflag1 Hlate1) as Hflag2. fold s2 in Hflag2.
    destruct (observer_step_elapse_follow s1 ms) as (_ & Hs2 & Hu2). fold s2 in Hs2, Hu2.
    destruct (observer_step_intersection_in_flight s2 [false] Hflag2)
      as (Ha3 & Hs3 & Hu3 & Hflag3).
    rewrite (observer_step_scroll_in_flight _ Hflag3).
    rewrite Ha3, Hs3, Hu3, Hs2, Hu2. simpl. tauto. }
  destruct H as (Ha & Hu & Hs). repeat split; auto.
  unfold Observer.showScrollButton. rewrite Hu. now rewrite andb_false_r.
Qed.

Lemma scroll_away_after_jump_is_ignored_witness :
  Observer.showScrollButton
    (Observer.run
       [Observer.JumpToBottomClick; Observer.Elapse 200;
        Observer.Intersection [false]; Observer.ScrollEvent]
       (Observer.mount false 3 sampleContainer)) = false.
Proof.
  refine (proj2 (proj2 (proj2 (@scroll_away_after_jump_is_ignored
                   (Observer.mount false 3 sampleContainer) 200%N _ _ _)))).
  - reflexivity.
  - reflexivity.
  - lia.
Defined.

(** ** Sending a message *)

Lemma trimStart_suffix s : exists p, s = p ++ Chat.trimStart s.
Proof.
  induction s as [|u s [p IH]]; simpl.
  - now exists [].
  - destruct (Chat.isWhiteSpace u).
    + exists (u :: p). simpl. now rewrite <- IH.
    + now exists [].
Qed.

Lemma trimStart_head s u r : Chat.trimStart s = u :: r -> Chat.isWhiteSpace u = false.
Proof.
  induction s as [|v s IH]; simpl; [discriminate|].
  destruct (Chat.isWhiteSpace v) eqn:Hv; [exact IH|].
  intros H. injection H as -> _. exact Hv.
Qed.

Lemma last_app_cons (A : Type) (p : list A) x r d : last (p ++ x :: r) d = last r x.
Proof.
  induction p as [|y p IH]; simpl.
  - apply last_cons_default.
  - rewrite <- IH. destruct (p ++ x :: r) eqn:E; [|reflexivity].
    now destruct p.
Qed.

Lemma rev_cons_last (A : Type) (l : list A) x r :
  rev l = x :: r -> exists l', l = l' ++ [x] /\ r = rev l'.
Proof.
  intros H. exists (rev r). rewrite rev_involutive. split; [|reflexivity].
  rewrite <- (rev_involutive l), H. reflexivity.
Qed.

(** What [trim] returns neither starts nor ends with a white-space code unit. *)
Lemma trim_edges s u r :
  Chat.trim s = u :: r ->
  Chat.isWhiteSpace u = false /\ Chat.isWhiteSpace (last r u) = false.
Proof.
  unfold Chat.trim, Chat.trimEnd. intros H.
  set (a := Chat.trimStart s) in *.
  set (b := Chat.trimStart (rev a)) in *.
  (* [b] is a suffix of [rev a]; its head is the last unit of the result *)
  assert (Hb : b <> []) by (intros E; rewrite E in H; discriminate).
  destruct b as [|v b'] eqn:Eb; [congruence|].
  pose proof (trimStart_head (rev a) Eb) as Hv.
  destruct (trimStart_suffix (rev a)) as [p Hp]. fold b in Hp. rewrite Eb in Hp.
  split.
  - (* the head of the result is the head of [a] *)
    assert (Ha : a = rev (v :: b') ++ rev p).
    { rewrite <- rev_app_distr, <- Hp. now rewrite rev_involutive. }
    rewrite H in Ha. simpl in Ha.
    apply (trimStart_head s (r := r ++ rev p)). fold a. now rewrite Ha.
  - (* the last unit of the result is [v] *)
    assert (Hl : last (u :: r) u = v).
    { rewrite <- H. simpl. now rewrite last_last. }
    rewrite last_cons_default in Hl. now rewrite Hl.
Qed.

Lemma send_disabled_handler_noop ch :
  Chat.sendDisabled ch = true -> Chat.handleSendMessage ch = ch.
Proof.
  unfold Chat.sendDisabled, Chat.handleSendMessage. cbv zeta.
  rewrite orb_comm. now intros ->.
Qed.

(** X8: the send button is disabled exactly when [handleSendMessage] would do
    nothing: while a reply is streaming, or when the input holds nothing but
    white space. *)
Theorem send_disabled_iff_handler_does_nothing :
  forall ch : Chat.state,
    Chat.sendDisabled ch = true <-> Chat.handleSendMessage ch = ch.
Proof.
  intros ch. unfold Chat.sendDisabled, Chat.handleSendMessage. cbv zeta.
  rewrite (orb_comm (Observer.isStreaming (Chat.hook ch))).
  destruct (Chat.falsy (Chat.trim (Chat.inputValue ch))
            || Observer.isStreaming (Chat.hook ch)); split; auto.
  - discriminate.
  - intros H. apply (f_equal Chat.sentMessages) in H. simpl in H.
    apply (f_equal (@length _)) in H. rewrite length_app in H. simpl in H. lia.
Qed.

(** Two spaces in the input box: the button is disabled and the handler
    leaves everything as it is. *)
Lemma send_disabled_iff_handler_does_nothing_witness :
  let ch := Chat.mkState [32; 32]%N (Observer.mount false 3 sampleContainer) [] in
  Chat.handleSendMessage ch = ch.
Proof.
  intros ch. apply (proj1 (send_disabled_iff_handler_does_nothing ch)). reflexivity.
Defined.

(** X9: when the send goes through, the message handed to [onSendMessage] is
    the trimmed input: it is not empty and neither starts nor ends with a
    white-space code unit.  The input box is emptied, the hook's flags are
    left alone and one smooth scroll is made if the anchor is mounted. *)
Theorem sent_message_is_trimmed :
  forall ch : Chat.state,
    Chat.sendDisabled ch = false ->
    let ch' := Chat.handleSendMessage ch in
    Chat.inputValue ch' = [] /\
    Chat.hook ch' = Observer.scrollToBottom true (Chat.hook ch) /\
    Observer.flags (Chat.hook ch') = Observer.flags (Chat.hook ch) /\
    Observer.scrollLog (Chat.hook ch') =
      Observer.scrollLog (Chat.hook ch) ++
        (if Observer.messagesEndRef (Chat.hook ch) then [true] else []) /\
    exists u r,
      Chat.sentMessages ch' = Chat.sentMessages ch ++ [u :: r] /\
      Chat.trim (Chat.inputValue ch) = u :: r /\
      Chat.isWhiteSpace u = false /\
      Chat.isWhiteSpace (last r u) = false.
Proof.
  intros ch Hen ch'. subst ch'.
  unfold Chat.sendDisabled in Hen. apply orb_false_iff in Hen. destruct Hen as [Hstr Hne].
  unfold Chat.handleSendMessage. cbv zeta. rewrite Hne, Hstr. simpl.
  destruct (observer_scrollToBottom_flags true (Chat.hook ch)) as [Hfl _].
  destruct (observer_scrollToBottom_log true (Chat.hook ch)) as (Hlog & _).
  repeat split; auto.
  destruct (Chat.trim (Chat.inputValue ch)) as [|u r] eqn:Ht; [discriminate|].
  exists u, r. destruct (trim_edges _ Ht). auto.
Qed.

(** "  hi " followed by a line feed is sent as "hi". *)
Lemma sent_message_is_trimmed_witness :
  let ch := Chat.mkState [32; 32; 104; 105; 32; 10]%N
              (Observer.mount false 3 sampleContainer) [] in
  Chat.sentMessages (Chat.handleSendMessage ch) = [[104; 105]%N] /\
  Chat.inputValue (Chat.handleSendMessage ch) = [].
Proof.
  intros ch. split; [reflexivity|].
  exact (proj1 (@sent_message_is_trimmed ch eq_refl)).
Defined.

(** X10: Enter without Shift is taken over even when nothing can be sent:
    while a reply is streaming or the input is blank, [handleKeyDown] calls
    [preventDefault] and leaves the input and the sent messages as they are.
    Any other key, and Enter with Shift, is left to the text area. *)
Theorem enter_is_swallowed_when_send_is_disabled :
  forall (e : Chat.keyboardEvent) (ch : Chat.state),
    (Chat.isEnterKey e = true -> Chat.shiftKey e = false ->
     Chat.sendDisabled ch = true -> Chat.handleKeyDown e ch = (true, ch)) /\
    (Chat.isEnterKey e = false \/ Chat.shiftKey e = true ->
     Chat.handleKeyDown e ch = (false, ch)).
Proof.
  intros e ch. unfold Chat.handleKeyDown. split.
  - intros -> -> Hdis. simpl. f_equal.
    now apply send_disabled_handler_noop.
  - intros [-> | ->]; simpl; [reflexivity|]. now rewrite andb_false_r.
Qed.

Lemma enter_is_swallowed_when_send_is_disabled_witness :
  let ch := Chat.mkState [104; 105]%N (Observer.mount true 3 sampleContainer) [] in
  Chat.handleKeyDown (Chat.mkKeyboardEvent true false) ch = (true, ch) /\
  Chat.handleKeyDown (Chat.mkKeyboardEvent true true) ch = (false, ch).
Proof.
  intros ch.
  destruct (enter_is_swallowed_when_send_is_disabled (Chat.mkKeyboardEvent true false) ch)
    as [Hswallow _].
  destruct (enter_is_swallowed_when_send_is_disabled (Chat.mkKeyboardEvent true true) ch)
    as [_ Hleft].
  split; [apply Hswallow; reflexivity|apply Hleft; now right].
Defined.

(** X11: sending a message while scrolled up scrolls to the bottom but does
    not resume auto-scroll.  [handleSendMessage] calls [scrollToBottom(true)]
    without touching the flags, and when the observer reports the arrival
    within the 500 ms of the guard (anchor mounted, no earlier reset timer
    pending), the report only sets [isAtBottom].  If auto-scroll was off it
    stays off, and content that arrives afterwards requests no scroll. *)
Theorem sending_while_scrolled_up_keeps_follow_off :
  forall (ch : Chat.state) (ms : N),
    Chat.sendDisabled ch = false ->
    Observer.messagesEndRef (Chat.hook ch) = true ->
    existsb Observer.resetsProgrammatic (Observer.timers (Chat.hook ch)) = false ->
    (ms < 500)%N ->
    let h := Observer.run [Observer.Elapse ms; Observer.Intersection [true]]
               (Chat.hook (Chat.handleSendMessage ch)) in
    Observer.isAtBottom h = true /\
    Observer.shouldAutoScroll h = Observer.shouldAutoScroll (Chat.hook ch) /\
    Observer.isUserScrolling h = Observer.isUserScrolling (Chat.hook ch) /\
    (Observer.shouldAutoScroll (Chat.hook ch) = false ->
     forall (streaming : bool) (len : nat),
       Observer.frames (Observer.step h (Observer.Render streaming len)) = Observer.frames h).
Proof.
  intros ch ms Hen Hm Hnone Hms h.
  assert (Hhook : Chat.hook (Chat.handleSendMessage ch)
                  = Observer.scrollToBottom true (Chat.hook ch)).
  { unfold Chat.sendDisabled in Hen. apply orb_false_iff in Hen. destruct Hen as [Hstr Hne].
    unfold Chat.handleSendMessage. cbv zeta. now rewrite Hne, Hstr. }
  subst h. rewrite Hhook. unfold Observer.run. cbn [fold_left].
  set (s0 := Chat.hook ch) in *.
  set (s1 := Observer.scrollToBottom true s0).
  destruct (observer_scrollToBottom_timers s0 Hm) as (Hflag1 & _). fold s1 in Hflag1.
  pose proof (observer_fresh_guard s0 Hm Hnone Hms) as Hlate. fold s1 in Hlate.
  destruct (observer_flags_inv (proj1 (observer_scrollToBottom_flags true s0)))
    as (_ & Hs1 & Hu1 & _). fold s1 in Hs1, Hu1.
  set (s2 := Observer.step s1 (Observer.Elapse ms)).
  pose proof (observer_guard_survives s1 ms Hflag1 Hlate) as Hflag2. fold s2 in Hflag2.
  destruct (observer_step_elapse_follow s1 ms) as (_ & Hs2 & Hu2). fold s2 in Hs2, Hu2.
  destruct (observer_step_intersection_in_flight s2 [true] Hflag2)
    as (Ha3 & Hs3 & Hu3 & _).
  set (s3 := Observer.step s2 (Observer.Intersection [true])) in *.
  assert (Hs : Observer.shouldAutoScroll s3 = Observer.shouldAutoScroll s0) by congruence.
  repeat split; [exact Ha3|exact Hs|congruence|].
  intros Hoff streaming len.
  unfold Observer.step, Observer.commit, Observer.autoScrollEffect. simpl.
  rewrite Hs, Hoff. simpl. now destruct (Observer.depsChanged _ _).
Qed.

(** The user scrolled up, typed "hi" and sends it; the arrival at the bottom
    is reported 300 ms later. *)
Lemma sending_while_scrolled_up_keeps_follow_off_witness :
  let ch := Chat.mkState [104; 105]%N
              (Observer.run [Observer.Intersection [false]; Observer.ScrollEvent]
                 (Observer.mount false 3 sampleContainer)) [] in
  let h := Observer.run [Observer.Elapse 300; Observer.Intersection [true]]
             (Chat.hook (Chat.handleSendMessage ch)) in
  Observer.shouldAutoScroll (Chat.hook ch) = false /\
  Observer.isAtBottom h = true /\
  Observer.shouldAutoScroll h = false /\
  Observer.frames (Observer.step h (Observer.Render false 4)) = Observer.frames h.
Proof.
  intros ch h. split; [reflexivity|].
  destruct (@sending_while_scrolled_up_keeps_follow_off ch 300%N eq_refl eq_refl eq_refl)
    as (Ha & Hs & _ & Hframes).
  - lia.
  - split; [exact Ha|]. split; [exact Hs|]. apply Hframes. reflexivity.
Defined.

(** ** The timer of the hook of [useAutoScroll.ts] *)

Lemma filter_length_bound (A : Type) (f : A -> bool) l : length (filter f l) <= length l.
Proof.
  induction l as [|x l IH]; simpl; [lia|]. destruct (f x); simpl; lia.
Qed.

Lemma offset_step_timers_length st ev :
  Offset.timersTracked st ->
  length (Offset.timers st) <= 1 ->
  length (Offset.timers (Offset.step st ev)) <= 1.
Proof.
  intros Htr Hlen. unfold Offset.step. autorewrite with offset_proj.
  destruct ev as [entries| | |smooth|b|streaming len|c anchor| |ms|]; simpl.
  - now destruct (OffsetFacts.observerCallback_timers entries st) as [-> _].
  - pose proof (OffsetFacts.cleared_timers Htr) as Et.
    rewrite OffsetFacts.handleScroll_cleared.
    destruct (Offset.chatMessagesRef (Offset.cleared st)) as [c|]; [|rewrite Et; simpl; lia].
    cbv zeta. destruct (Offset.offsetsAtBottom c); simpl.
    + rewrite Et. simpl. lia.
    + destruct (negb (Offset.isStreaming (Offset.cleared st))); simpl; rewrite Et; simpl; lia.
  - unfold Offset.handleScrollToBottom.
    match goal with
    | |- context [Offset.scrollToBottom true ?s] =>
        destruct (OffsetFacts.scrollToBottom_timers true s) as [-> _]
    end. exact Hlen.
  - now destruct (OffsetFacts.scrollToBottom_timers smooth st) as [-> _].
  - exact Hlen.
  - exact Hlen.
  - exact Hlen.
  - now destruct (OffsetFacts.animationFrame_timers st) as [-> _].
  - unfold Offset.elapse.
    match goal with
    | |- context [fold_left Offset.fireTimer ?l ?s] =>
        destruct (OffsetFacts.offset_fireTimers_fields l s) as (_ & _ & _ & _ & _ & -> & _)
    end.
    simpl. unfold waiting. etransitivity; [apply filter_length_bound|exact Hlen].
  - unfold Offset.unmountCleanup. destruct (Offset.scrollTimeoutRef st); [|exact Hlen].
    simpl. unfold cancel. etransitivity; [apply filter_length_bound|exact Hlen].
Qed.

Lemma offset_run_timers_length evs : forall st,
  Offset.timersTracked st ->
  length (Offset.timers st) <= 1 ->
  length (Offset.timers (Offset.run evs st)) <= 1.
Proof.
  unfold Offset.run. induction evs as [|ev evs IH]; intros st Htr Hlen; simpl; [exact Hlen|].
  apply IH.
  - now apply OffsetFacts.timersTracked_step.
  - now apply offset_step_timers_length.
Qed.

(** X12: the hook of [useAutoScroll.ts] never has more than one timer
    pending, whatever the events since mount: every scroll event clears the
    timer of the one before, and [scrollTimeoutRef] holds the id of any timer
    that is pending. *)
Theorem offset_at_most_one_timer :
  forall (streaming : bool) (len : nat) (c : container) (evs : list Offset.event),
    let st := Offset.run evs (Offset.mount streaming len c) in
    length (Offset.timers st) <= 1 /\
    (forall t, In t (Offset.timers st) -> Offset.scrollTimeoutRef st = Some (timerId t)).
Proof.
  intros streaming len c evs st. subst st. split.
  - apply offset_run_timers_length.
    + apply OffsetFacts.timersTracked_mount.
    + unfold Offset.mount, Offset.autoScrollEffect. simpl. lia.
  - apply OffsetFacts.timersTracked_run, OffsetFacts.timersTracked_mount.
Qed.

(** Three scroll events at the bottom, 100 ms apart: one timer is pending. *)
Lemma offset_at_most_one_timer_witness :
  let evs := [Offset.Dom (Some (mkContainer 1400 2000 600)) true; Offset.ScrollEvent;
              Offset.Elapse 100; Offset.ScrollEvent; Offset.Elapse 100;
              Offset.ScrollEvent] in
  let st := Offset.run evs (Offset.mount false 3 sampleContainer) in
  length (Offset.timers st) <= 1.
Proof.
  intros evs st.
  exact (proj1 (offset_at_most_one_timer false 3 sampleContainer evs)).
Defined.

(** With nothing pending, time passing changes no flag. *)
Lemma offset_elapse_idle st ms :
  Offset.timers st = [] ->
  let st' := Offset.step st (Offset.Elapse ms) in
  Offset.isAtBottom st' = Offset.isAtBottom st /\
  Offset.shouldAutoScroll st' = Offset.shouldAutoScroll st /\
  Offset.isUserScrolling st' = Offset.isUserScrolling st /\
  Offset.isLoadingOldMessages st' = Offset.isLoadingOldMessages st.
Proof.
  intros Ht st'. subst st'. unfold Offset.step. simpl Offset.handle.
  autorewrite with offset_proj. unfold Offset.elapse. rewrite Ht. simpl. auto.
Qed.

(** X13: unmounting cancels the pending release.  After the cleanup no timer
    of the hook is left, so no state is set after the unmount: however much
    time passes, the four flags stay as they were. *)
Theorem unmount_cancels_release :
  forall (streaming : bool) (len : nat) (c : container) (evs : list Offset.event) (ms : N),
    let st := Offset.run evs (Offset.mount streaming len c) in
    let st' := Offset.run [Offset.Unmount; Offset.Elapse ms] st in
    Offset.timers (Offset.step st Offset.Unmount) = [] /\
    Offset.isAtBottom st' = Offset.isAtBottom st /\
    Offset.shouldAutoScroll st' = Offset.shouldAutoScroll st /\
    Offset.isUserScrolling st' = Offset.isUserScrolling st /\
    Offset.isLoadingOldMessages st' = Offset.isLoadingOldMessages st.
Proof.
  intros streaming len c evs ms st st'.
  assert (Htr : Offset.timersTracked st)
    by (apply OffsetFacts.timersTracked_run, OffsetFacts.timersTracked_mount).
  assert (Ht : Offset.timers (Offset.step st Offset.Unmount) = []).
  { unfold Offset.step. simpl Offset.handle. autorewrite with offset_proj.
    exact (OffsetFacts.cleared_timers Htr). }
  split; [exact Ht|].
  subst st'. unfold Offset.run. cbn [fold_left].
  destruct (offset_elapse_idle _ ms Ht) as (-> & -> & -> & ->).
  unfold Offset.step. simpl Offset.handle. autorewrite with offset_proj.
  destruct (OffsetFacts.cleared_fields st) as (Ea & Es & Eu & El & _).
  auto.
Qed.

(** X14: a scroll event that arrives while the container is not mounted
    changes none of the four flags but still clears the pending timer, and
    sets no new one:
    a release of [isUserScrolling] that was pending is lost, and time alone
    no longer clears the flag. *)
Theorem scroll_without_container_drops_release :
  forall (streaming : bool) (len : nat) (c : container) (evs : list Offset.event) (ms : N),
    let st := Offset.run evs (Offset.mount streaming len c) in
    Offset.chatMessagesRef st = None ->
    let st' := Offset.step st Offset.ScrollEvent in
    Offset.timers st' = [] /\
    Offset.isAtBottom st' = Offset.isAtBottom st /\
    Offset.shouldAutoScroll st' = Offset.shouldAutoScroll st /\
    Offset.isUserScrolling st' = Offset.isUserScrolling st /\
    Offset.isLoadingOldMessages st' = Offset.isLoadingOldMessages st /\
    Offset.isUserScrolling (Offset.step st' (Offset.Elapse ms)) = Offset.isUserScrolling st.
Proof.
  intros streaming len c evs ms st Hc st'.
  assert (Htr : Offset.timersTracked st)
    by (apply OffsetFacts.timersTracked_run, OffsetFacts.timersTracked_mount).
  destruct (OffsetFacts.cleared_fields st) as (Ea & Es & Eu & El & _ & Ec & _).
  assert (Hst' : Offset.handleScroll st = Offset.cleared st).
  { rewrite OffsetFacts.handleScroll_cleared. now rewrite Ec, Hc. }
  assert (Ht : Offset.timers st' = []).
  { subst st'. unfold Offset.step. simpl Offset.handle. autorewrite with offset_proj.
    rewrite Hst'. exact (OffsetFacts.cleared_timers Htr). }
  assert (Hflags : Offset.isAtBottom st' = Offset.isAtBottom st /\
                   Offset.shouldAutoScroll st' = Offset.shouldAutoScroll st /\
                   Offset.isUserScrolling st' = Offset.isUserScrolling st /\
                   Offset.isLoadingOldMessages st' = Offset.isLoadingOldMessages st).
  { subst st'. unfold Offset.step. simpl Offset.handle. autorewrite with offset_proj.
    rewrite Hst'. auto. }
  destruct Hflags as (Ha' & Hs' & Hu' & Hl').
  destruct (offset_elapse_idle _ ms Ht) as (_ & _ & Hu'' & _).
  repeat split; auto. congruence.
Qed.

(** The user is back at the bottom with the release pending; the container
    unmounts, one more scroll event arrives, and a second later
    [isUserScrolling] is still set. *)
Lemma scroll_without_container_drops_release_witness :
  let evs := [Offset.ScrollEvent; Offset.Dom (Some (mkContainer 1400 2000 600)) true;
              Offset.ScrollEvent; Offset.Dom None true] in
  let st := Offset.run evs (Offset.mount false 3 sampleContainer) in
  length (Offset.timers st) = 1 /\
  Offset.isUserScrolling
    (Offset.step (Offset.step st Offset.ScrollEvent) (Offset.Elapse 1000)) = true.
Proof.
  intros evs st. split; [reflexivity|].
  destruct (@scroll_without_container_drops_release false 3 sampleContainer evs 1000%N
              eq_refl) as (_ & _ & _ & _ & _ & Hu).
  exact Hu.
Defined.

(** X15: the hook of [useAutoScroll.ts] takes the view to be at the bottom
    when its offset is within one pixel of the last one, whatever the observer
    reported before.  A scroll event with the container mounted sets
    [isAtBottom] by that test, and when it holds it turns auto-scroll on and
    leaves [isUserScrolling] to the timer. *)
Theorem offsets_decide_isAtBottom :
  forall (st : Offset.state) (c : container),
    Offset.chatMessagesRef st = Some c ->
    let st' := Offset.step st Offset.ScrollEvent in
    (Offset.isAtBottom st' = true <->
     (scrollHeight c - clientHeight c - scrollTop c <= 1)%Z) /\
    ((scrollHeight c - clientHeight c - scrollTop c <= 1)%Z ->
     Offset.shouldAutoScroll st' = true /\
     Offset.isUserScrolling st' = Offset.isUserScrolling st).
Proof.
  intros st c Hc st'. subst st'. unfold Offset.step. simpl Offset.handle.
  autorewrite with offset_proj. rewrite OffsetFacts.handleScroll_cleared.
  destruct (OffsetFacts.cleared_fields st) as (_ & _ & Eu & _ & _ & Ec & _).
  rewrite Ec, Hc. cbv zeta.
  assert (Hiff : Offset.offsetsAtBottom c = true <->
                 (scrollHeight c - clientHeight c - scrollTop c <= 1)%Z).
  { unfold Offset.offsetsAtBottom. rewrite Z.leb_le. lia. }
  destruct (Offset.offsetsAtBottom c) eqn:Hb; simpl.
  - split; [tauto|]. intros _. rewrite Eu. auto.
  - split.
    + destruct (negb (Offset.isStreaming (Offset.cleared st))); simpl;
        (split; [discriminate|]); intros H; apply Hiff in H; discriminate.
    + intros H. apply Hiff in H. discriminate.
Qed.

(** A list shorter than the viewport: the scroll event reads "at the bottom". *)
Lemma offsets_decide_isAtBottom_witness :
  let st := Offset.run [Offset.Intersection [false];
                        Offset.Dom (Some (mkContainer 0 400 600)) true]
              (Offset.mount false 3 sampleContainer) in
  Offset.isAtBottom st = false /\
  Offset.isAtBottom (Offset.step st Offset.ScrollEvent) = true /\
  Offset.shouldAutoScroll (Offset.step st Offset.ScrollEvent) = true.
Proof.
  intros st. split; [reflexivity|].
  destruct (@offsets_decide_isAtBottom st (mkContainer 0 400 600) eq_refl) as [Hiff Hon].
  split.
  - apply Hiff. simpl. lia.
  - apply Hon. simpl. lia.
Defined.

(** ** Batched observer reports *)

Lemma observeEntry_was_at_bottom entries : forall st,
  let st' := fold_left (Observer.observeEntry true) entries st in
  Observer.shouldAutoScroll st' = Observer.shouldAutoScroll st /\
  Observer.isUserScrolling st' = Observer.isUserScrolling st /\
  Observer.isAtBottom st' = last entries (Observer.isAtBottom st).
Proof.
  induction entries as [|e es IH]; intros st; simpl; [auto|].
  destruct (IH (Observer.observeEntry true st e)) as (-> & -> & ->).
  unfold Observer.observeEntry. simpl. repeat split.
  symmetry. apply last_cons_default.
Qed.

Lemma observeEntry_arrival entries : forall st,
  Observer.isScrollingProgrammaticallyRef st = false ->
  let st' := fold_left (Observer.observeEntry false) entries st in
  Observer.shouldAutoScroll st' =
    (if existsb (fun e => e) entries then true else Observer.shouldAutoScroll st) /\
  Observer.isUserScrolling st' =
    (if existsb (fun e => e) entries then false else Observer.isUserScrolling st) /\
  Observer.isAtBottom st' = last entries (Observer.isAtBottom st).
Proof.
  induction entries as [|e es IH]; intros st Hp; simpl; [auto|].
  assert (Hp' : Observer.isScrollingProgrammaticallyRef (Observer.observeEntry false st e)
                = false).
  { unfold Observer.observeEntry. simpl. rewrite Hp. now destruct e. }
  destruct (IH (Observer.observeEntry false st e) Hp') as (-> & -> & ->).
  unfold Observer.observeEntry. simpl. rewrite Hp.
  destruct e; simpl; destruct (existsb (fun e => e) es); repeat split;
    symmetry; apply last_cons_default.
Qed.

(** X16: every entry of one observer callback is compared with the
    [isAtBottom] of the last render.  If that was true, no batch of reports
    changes [shouldAutoScroll] or [isUserScrolling], even one that leaves and
    re-enters the bottom.  If it was false and no programmatic scroll is in
    flight, one visible entry anywhere in the batch resumes auto-scroll and
    clears [isUserScrolling], even when the last entry, which decides
    [isAtBottom], is not visible. *)
Theorem batched_reports_use_last_render :
  forall (st : Observer.state) (entries : list bool),
    let st' := Observer.step st (Observer.Intersection entries) in
    Observer.isAtBottom st' = last entries (Observer.isAtBottom st) /\
    (Observer.isAtBottom st = true ->
     Observer.shouldAutoScroll st' = Observer.shouldAutoScroll st /\
     Observer.isUserScrolling st' = Observer.isUserScrolling st) /\
    (Observer.isAtBottom st = false ->
     Observer.isScrollingProgrammaticallyRef st = false ->
     existsb (fun e => e) entries = true ->
     Observer.shouldAutoScroll st' = true /\ Observer.isUserScrolling st' = false).
Proof.
  intros st entries st'. subst st'. unfold Observer.step. simpl Observer.handle.
  autorewrite with commit_proj. unfold Observer.observerCallback.
  destruct (Observer.isAtBottom st) eqn:Hb.
  - destruct (observeEntry_was_at_bottom entries st) as (Hs & Hu & Ha).
    rewrite Hb in Ha. repeat split; auto; discriminate.
  - destruct (Observer.isScrollingProgrammaticallyRef st) eqn:Hp.
    + destruct (ObserverFacts.observerCallback_in_flight entries false st Hp)
        as (Ha & _). rewrite Hb in Ha.
      repeat split; auto; discriminate.
    + destruct (observeEntry_arrival entries st Hp) as (Hs & Hu & Ha).
      rewrite Hb in Ha. split; [exact Ha|]. split; [discriminate|].
      intros _ _ Hex. rewrite Hex in Hs, Hu. auto.
Qed.

(** The user had scrolled up; one callback reports the anchor visible and
    then hidden again: auto-scroll is back on although the view is not at the
    bottom. *)
Lemma batched_reports_use_last_render_witness :
  let st := Observer.run [Observer.Intersection [false]; Observer.ScrollEvent]
              (Observer.mount false 3 sampleContainer) in
  let st' := Observer.step st (Observer.Intersection [true; false]) in
  Observer.isAtBottom st' = false /\
  Observer.shouldAutoScroll st' = true /\
  Observer.isUserScrolling st' = false.
Proof.
  intros st st'.
  destruct (batched_reports_use_last_render st [true; false]) as (Ha & _ & Harr).
  split; [exact Ha|]. exact (Harr eq_refl eq_refl eq_refl).
Defined.

(** ** Nothing scrolls under a user who scrolled away *)

Lemma observer_fireTimers_scrollLog l : forall st,
  Observer.scrollLog (fold_left Observer.fireTimer l st) = Observer.scrollLog st.
Proof.
  induction l as [|t l IH]; intros st; simpl; [reflexivity|].
  rewrite IH. unfold Observer.fireTimer. destruct (action t); reflexivity.
Qed.

Lemma observeEntry_hidden entries : forall was st,
  forallb negb entries = true ->
  let st' := fold_left (Observer.observeEntry was) entries st in
  Observer.shouldAutoScroll st' = Observer.shouldAutoScroll st /\
  Observer.frames st' = Observer.frames st /\
  Observer.scrollLog st' = Observer.scrollLog st.
Proof.
  induction entries as [|e es IH]; intros was st Hall; simpl; [auto|].
  simpl in Hall. apply andb_true_iff in Hall. destruct Hall as [He Hall].
  destruct e; [discriminate|].
  destruct (IH was (Observer.observeEntry was st false) Hall) as (-> & -> & ->).
  unfold Observer.observeEntry. simpl. rewrite andb_false_r. auto.
Qed.

Lemma followOff_commit old new : followOff new -> followOff (Observer.commit old new).
Proof.
  intros [Hs Hf]. unfold followOff, Observer.commit, Observer.autoScrollEffect.
  rewrite Hs. simpl. now destruct (Observer.depsChanged old new).
Qed.

Lemma passive_step st ev :
  followOff st -> passive ev = true ->
  followOff (Observer.step st ev) /\
  Observer.scrollLog (Observer.step st ev) = Observer.scrollLog st.
Proof.
  intros [Hs Hf] Hev. unfold Observer.step. autorewrite with commit_proj.
  assert (H : followOff (Observer.handle ev st) /\
              Observer.scrollLog (Observer.handle ev st) = Observer.scrollLog st);
    [|destruct H as [H1 H2]; split; [now apply followOff_commit|exact H2]].
  unfold followOff.
  destruct ev as [entries| | |smooth| |b|streaming len|c anchor| |ms]; simpl in Hev |- *;
    try discriminate; auto.
  - unfold Observer.observerCallback.
    destruct (observeEntry_hidden entries (Observer.isAtBottom st) st Hev) as (-> & -> & ->).
    auto.
  - unfold Observer.handleScroll.
    destruct (Observer.isScrollingProgrammaticallyRef st); [auto|].
    destruct (negb (Observer.isAtBottom st) && negb (Observer.isStreaming st)); simpl; auto.
  - unfold Observer.handleLoadOldMessages. simpl.
    destruct (Observer.chatMessagesRef st); simpl; auto.
    rewrite requestedScrolls_app, Hf. auto.
  - destruct (observer_flags_inv (proj1 (observer_animationFrame_flags st)))
      as (_ & -> & _).
    unfold Observer.animationFrame.
    match goal with
    | |- context [fold_left Observer.runFrame ?l ?s] =>
        destruct (observer_runFrames_log l s) as (-> & -> & _)
    end.
    simpl. rewrite Hf. destruct (Observer.messagesEndRef st); rewrite app_nil_r; auto.
  - destruct (observer_elapse_follow ms st) as (_ & -> & _).
    unfold Observer.elapse.
    match goal with
    | |- context [fold_left Observer.fireTimer ?l ?s] =>
        destruct (ObserverFacts.fireTimers_fields l s)
          as (_ & _ & _ & _ & _ & _ & _ & -> & _);
        rewrite (observer_fireTimers_scrollLog l s)
    end.
    simpl. auto.
Qed.

(** X17: once auto-scroll is off and no scroll is queued, the hook does not
    scroll the view on its own.  New content, streaming, scroll events,
    reports that the anchor is hidden, prepends, frames and timers make no
    scroll call and leave auto-scroll off; only a report that the anchor is
    visible, a click on the button or a call of [scrollToBottom] can end
    this. *)
Theorem no_scroll_while_follow_is_off :
  forall (st : Observer.state) (evs : list Observer.event),
    Observer.shouldAutoScroll st = false ->
    requestedScrolls (Observer.frames st) = [] ->
    forallb passive evs = true ->
    Observer.scrollLog (Observer.run evs st) = Observer.scrollLog st /\
    Observer.shouldAutoScroll (Observer.run evs st) = false.
Proof.
  intros st evs Hs Hf. assert (Hoff : followOff st) by (split; assumption).
  clear Hs Hf. revert st Hoff.
  unfold Observer.run. induction evs as [|ev evs IH]; intros st Hoff Hall; simpl.
  - split; [reflexivity|apply Hoff].
  - simpl in Hall. apply andb_true_iff in Hall. destruct Hall as [Hev Hall].
    destruct (@passive_step st ev Hoff Hev) as [Hoff' Hlog].
    destruct (IH _ Hoff' Hall) as [Hlog' Hs']. split; [congruence|exact Hs'].
Qed.

(** The user scrolled up after the first scroll had settled; a reply then
    streams in. *)
Lemma no_scroll_while_follow_is_off_witness :
  let st := Observer.run
              [Observer.AnimationFrame; Observer.Elapse 500;
               Observer.Intersection [false]; Observer.ScrollEvent]
              (Observer.mount false 3 sampleContainer) in
  let evs := [Observer.Render true 4; Observer.AnimationFrame; Observer.Render true 5;
              Observer.Elapse 600; Observer.ScrollEvent; Observer.Render false 5;
              Observer.AnimationFrame] in
  Observer.scrollLog st = [true] /\ Observer.scrollLog (Observer.run evs st) = [true].
Proof.
  intros st evs. split; [reflexivity|].
  refine (proj1 (@no_scroll_while_follow_is_off st evs _ _ _)); reflexivity.
Defined.

(** ** The settle delay under any other events *)

(** No handler of the observer hook cancels a timer or an animation frame:
    pending callbacks stay pending until they run. *)

Lemma observerCallback_scheduler entries : forall was st,
  let st' := fold_left (Observer.observeEntry was) entries st in
  Observer.timers st' = Observer.timers st /\
  Observer.frames st' = Observer.frames st /\
  Observer.clock st' = Observer.clock st.
Proof.
  induction entries as [|e es IH]; intros was st; simpl; [auto|].
  destruct (IH was (Observer.observeEntry was st e)) as (-> & -> & ->).
  unfold Observer.observeEntry. simpl.
  destruct (negb was && e && negb (Observer.isScrollingProgrammaticallyRef st)); auto.
Qed.

Lemma observer_handleScroll_scheduler st :
  Observer.timers (Observer.handleScroll st) = Observer.timers st /\
  Observer.frames (Observer.handleScroll st) = Observer.frames st /\
  Observer.clock (Observer.handleScroll st) = Observer.clock st.
Proof.
  unfold Observer.handleScroll.
  destruct (Observer.isScrollingProgrammaticallyRef st); [auto|].
  destruct (negb (Observer.isAtBottom st) && negb (Observer.isStreaming st)); auto.
Qed.

Lemma observer_scrollToBottom_scheduler smooth st :
  (forall t, In t (Observer.timers st) ->
             In t (Observer.timers (Observer.scrollToBottom smooth st))) /\
  (forall t, In t (Observer.timers (Observer.scrollToBottom smooth st)) ->
             Observer.releasesLoading t = true -> In t (Observer.timers st)) /\
  Observer.frames (Observer.scrollToBottom smooth st) = Observer.frames st /\
  Observer.clock (Observer.scrollToBottom smooth st) = Observer.clock st.
Proof.
  unfold Observer.scrollToBottom. destruct (Observer.messagesEndRef st); simpl.
  - repeat split; auto.
    + intros t Hin. apply in_enqueue. now right.
    + intros t Hin Hrel. apply in_enqueue in Hin. destruct Hin as [->|Hin]; [|exact Hin].
      discriminate.
  - auto.
Qed.

Lemma observer_runFrame_scheduler st cb :
  (forall t, In t (Observer.timers st) -> In t (Observer.timers (Observer.runFrame st cb))) /\
  (forall t, In t (Observer.timers (Observer.runFrame st cb)) ->
             Observer.releasesLoading t = true ->
             In t (Observer.timers st) \/ due t = (Observer.clock st + 500)%N) /\
  Observer.frames (Observer.runFrame st cb) = Observer.frames st.
Proof.
  destruct cb as [smooth|hb tb]; simpl.
  - destruct (observer_scrollToBottom_scheduler smooth st) as (Hk & Hr & Hf & _).
    repeat split; auto.
  - destruct (Observer.chatMessagesRef st); simpl; repeat split.
    + intros t Hin. apply in_enqueue. now right.
    + intros t Hin _. apply in_enqueue in Hin. destruct Hin as [->|Hin]; auto.
    + intros t Hin. apply in_enqueue. now right.
    + intros t Hin _. apply in_enqueue in Hin. destruct Hin as [->|Hin]; auto.
Qed.

Lemma observer_runFrames_scheduler l : forall st,
  (forall t, In t (Observer.timers st) ->
             In t (Observer.timers (fold_left Observer.runFrame l st))) /\
  (forall t, In t (Observer.timers (fold_left Observer.runFrame l st)) ->
             Observer.releasesLoading t = true ->
             In t (Observer.timers st) \/ due t = (Observer.clock st + 500)%N).
Proof.
  induction l as [|cb l IH]; intros st; simpl; [auto|].
  destruct (IH (Observer.runFrame st cb)) as [Hk Hr].
  destruct (observer_runFrame_scheduler st cb) as (Hk1 & Hr1 & _).
  split.
  - auto.
  - intros t Hin Hrel. destruct (Hr t Hin Hrel) as [Hin1|Hdue].
    + auto.
    + right. now rewrite ObserverFacts.runFrame_clock in Hdue.
Qed.


Lemma observer_step_clock st ev :
  Observer.clock (Observer.step st ev) = (Observer.clock st + elapsedOf ev)%N.
Proof.
  unfold Observer.step. autorewrite with commit_proj.
  destruct ev as [entries| | |smooth| |b|streaming len|c anchor| |ms]; simpl;
    rewrite ?N.add_0_r.
  - unfold Observer.observerCallback.
    now destruct (observerCallback_scheduler entries (Observer.isAtBottom st) st)
      as (_ & _ & ->).
  - now destruct (observer_handleScroll_scheduler st) as (_ & _ & ->).
  - unfold Observer.handleScrollToBottom.
    match goal with
    | |- context [Observer.scrollToBottom true ?s] =>
        now destruct (observer_scrollToBottom_scheduler true s) as (_ & _ & _ & ->)
    end.
  - now destruct (observer_scrollToBottom_scheduler smooth st) as (_ & _ & _ & ->).
  - unfold Observer.handleLoadOldMessages. simpl.
    destruct (Observer.chatMessagesRef st); reflexivity.
  - reflexivity.
  - reflexivity.
  - reflexivity.
  - unfold Observer.animationFrame. now rewrite ObserverFacts.runFrames_clock.
  - unfold Observer.elapse.
    match goal with
    | |- context [fold_left Observer.fireTimer ?l ?s] =>
        now destruct (ObserverFacts.fireTimers_fields l s)
          as (_ & _ & _ & _ & _ & _ & _ & _ & ->)
    end.
Qed.





(** A release timer that is pending after an event was pending before it or
    was started by a compensation during the event, 500 ms ahead. *)
Lemma observer_step_release_timers st ev t :
  In t (Observer.timers (Observer.step st ev)) ->
  Observer.releasesLoading t = true ->
  In t (Observer.timers st) \/ due t = (Observer.clock st + 500)%N.
Proof.
  unfold Observer.step. autorewrite with commit_proj.
  destruct ev as [entries| | |smooth| |b|streaming len|c anchor| |ms]; simpl;
    intros Hin Hrel; auto.
  - unfold Observer.observerCallback in Hin.
    destruct (observerCallback_scheduler entries (Observer.isAtBottom st) st) as (E & _).
    rewrite E in Hin. auto.
  - destruct (observer_handleScroll_scheduler st) as (E & _). rewrite E in Hin. auto.
  - unfold Observer.handleScrollToBottom in Hin.
    match type of Hin with
    | context [Observer.scrollToBottom true ?s] =>
        destruct (observer_scrollToBottom_scheduler true s) as (_ & Hr & _)
    end. left. exact (Hr t Hin Hrel).
  - destruct (observer_scrollToBottom_scheduler smooth st) as (_ & Hr & _).
    left. exact (Hr t Hin Hrel).
  - unfold Observer.handleLoadOldMessages in Hin. simpl in Hin.
    destruct (Observer.chatMessagesRef st); auto.
  - unfold Observer.animationFrame in Hin.
    match type of Hin with
    | context [fold_left Observer.runFrame ?l ?s] =>
        destruct (observer_runFrames_scheduler l s) as (_ & Hr)
    end. exact (Hr t Hin Hrel).
  - unfold Observer.elapse in Hin.
    match type of Hin with
    | context [fold_left Observer.fireTimer ?l ?s] =>
        destruct (ObserverFacts.fireTimers_fields l s)
          as (_ & _ & _ & _ & _ & _ & E & _)
    end.
    rewrite E in Hin. simpl in Hin. apply in_waiting in Hin. tauto.
Qed.

Lemma observer_step_keeps_loading st ev :
  releasesByHand ev = false ->
  Observer.isLoadingOldMessages st = true ->
  (forall t, In t (Observer.timers st) -> Observer.releasesLoading t = true ->
             (Observer.clock st + elapsedOf ev < due t)%N) ->
  Observer.isLoadingOldMessages (Observer.step st ev) = true.
Proof.
  intros Hev Hl Hlate.
  destruct ev as [entries| | |smooth| |b|streaming len|c anchor| |ms];
    unfold Observer.step; autorewrite with commit_proj; simpl.
  - unfold Observer.observerCallback. now rewrite observerCallback_loading.
  - now destruct (observer_handleScroll_keeps st) as [_ ->].
  - unfold Observer.handleScrollToBottom.
    now destruct (observer_flags_inv (proj1 (observer_scrollToBottom_flags true
      (Observer.setIsUserScrolling false (Observer.setShouldAutoScroll true st)))))
      as (_ & _ & _ & ->).
  - now destruct (observer_flags_inv (proj1 (observer_scrollToBottom_flags smooth st)))
      as (_ & _ & _ & ->).
  - unfold Observer.handleLoadOldMessages. simpl.
    destruct (Observer.chatMessagesRef st); reflexivity.
  - destruct b; [reflexivity|discriminate].
  - exact Hl.
  - exact Hl.
  - now destruct (observer_flags_inv (proj1 (observer_animationFrame_flags st)))
      as (_ & _ & _ & ->).
  - unfold Observer.elapse.
    match goal with
    | |- context [fold_left Observer.fireTimer ?l ?s] =>
        destruct (ObserverFacts.fireTimers_fields l s) as (_ & -> & _)
    end.
    simpl. destruct (existsb _ _) eqn:Hex; [|exact Hl].
    apply existsb_exists in Hex. destruct Hex as (t & Hin & Hrel).
    apply in_expired in Hin. destruct Hin as [Hin Hdue].
    specialize (Hlate t Hin Hrel). simpl in Hlate. lia.
Qed.

Lemma observer_step_keeps_loading_click st :
  Observer.isLoadingOldMessages (Observer.step st Observer.LoadOldMessagesClick) = true.
Proof.
  unfold Observer.step. autorewrite with commit_proj. simpl.
  unfold Observer.handleLoadOldMessages. simpl.
  destruct (Observer.chatMessagesRef st); reflexivity.
Qed.

Lemma observer_run_keeps_loading evs : forall (st : Observer.state) (since : N),
  Observer.isLoadingOldMessages st = true ->
  (forall t, In t (Observer.timers st) -> Observer.releasesLoading t = true ->
             (since + 500 <= due t)%N) ->
  (since <= Observer.clock st)%N ->
  existsb releasesByHand evs = false ->
  (Observer.clock st + elapsed evs < since + 500)%N ->
  Observer.isLoadingOldMessages (Observer.run evs st) = true.
Proof.
  unfold Observer.run.
  induction evs as [|ev evs IH]; intros st since Hl Hlate Hsince Hno Htime; simpl in *.
  - exact Hl.
  - apply orb_false_iff in Hno. destruct Hno as [Hev Hno].
    pose proof (observer_step_clock st ev) as Hk.
    apply (IH (Observer.step st ev) since).
    + apply observer_step_keeps_loading; auto.
      intros t Hin Hrel. specialize (Hlate t Hin Hrel). lia.
    + intros t Hin Hrel.
      destruct (observer_step_release_timers st ev t Hin Hrel) as [Hin0|Hdue].
      * now apply Hlate.
      * rewrite Hdue. lia.
    + rewrite Hk. lia.
    + exact Hno.
    + rewrite Hk. lia.
Qed.

(** X7: a click on "Load Old Messages" hides the jump-to-bottom button for
    the 500 ms that follow, whatever else happens in that time: scroll events
    (also the one the compensation's own write to [scrollTop] fires), observer
    reports, frames, renders, further clicks.  This needs no release timer of
    an earlier click to be pending and the host not to call
    [setIsLoadingOldMessages(false)] itself. *)
Theorem prepend_hides_button_for_settle_delay :
  forall (st : Observer.state) (evs : list Observer.event),
    existsb Observer.releasesLoading (Observer.timers st) = false ->
    existsb releasesByHand evs = false ->
    (elapsed evs < 500)%N ->
    let st' := Observer.run (Observer.LoadOldMessagesClick :: evs) st in
    Observer.isLoadingOldMessages st' = true /\ Observer.showScrollButton st' = false.
Proof.
  intros st evs Hnone Hno Htime st'.
  assert (Hl : Observer.isLoadingOldMessages st' = true).
  { subst st'. unfold Observer.run. cbn [fold_left].
    fold (Observer.run evs (Observer.step st Observer.LoadOldMessagesClick)).
    pose proof (observer_step_clock st Observer.LoadOldMessagesClick) as Hk.
    simpl in Hk. rewrite N.add_0_r in Hk.
    apply (@observer_run_keeps_loading evs _ (Observer.clock st)).
    - apply observer_step_keeps_loading_click.
    - intros t Hin Hrel.
      destruct (@observer_step_release_timers st _ t Hin Hrel) as [Hin0|Hdue].
      + rewrite (existsb_false_in _ _ _ Hnone Hin0) in Hrel. discriminate.
      + rewrite Hdue. lia.
    - rewrite Hk. lia.
    - exact Hno.
    - rewrite Hk. lia. }
  split; [exact Hl|].
  unfold Observer.showScrollButton. rewrite Hl. simpl. now rewrite andb_false_r.
Qed.

(** The user had scrolled up while a reply streamed; the prepend's frame
    writes [scrollTop], the scroll event that follows marks the user as
    scrolling, and the button still stays hidden. *)
Lemma prepend_hides_button_for_settle_delay_witness :
  let st := Observer.run
              [Observer.AnimationFrame; Observer.Elapse 500; Observer.Render true 4;
               Observer.AnimationFrame; Observer.Elapse 0;
               Observer.Intersection [false]; Observer.Render false 4]
              (Observer.mount false 3 sampleContainer) in
  let evs := [Observer.Dom (Some (mkContainer 500 2800 600)) true;
              Observer.AnimationFrame; Observer.ScrollEvent; Observer.Elapse 499] in
  Observer.isUserScrolling (Observer.run (Observer.LoadOldMessagesClick :: evs) st) = true /\
  Observer.showScrollButton (Observer.run (Observer.LoadOldMessagesClick :: evs) st) = false.
Proof.
  intros st evs. split; [reflexivity|].
  refine (proj2 (@prepend_hides_button_for_settle_delay st evs _ _ _)).
  - reflexivity.
  - reflexivity.
  - simpl. lia.
Defined.

(** ** The release of [isLoadingOldMessages], whatever happens meanwhile *)



